(** * server.js: the MetaTrader / web bridge, as a reactive state machine

    The program is a single-threaded Node.js process: a handful of callbacks
    (WebSocket connection / message / close, ZeroMQ dealer message, a
    two-second interval timer, two HTTP routes) that read and write three
    process-wide variables ([dealer], [marketData], [clients]) and talk to
    the outside through [ws.send], [dealer.send], [res.json] and [console].

    Every callback is embedded as a computation in a small state-and-exception
    monad [Js]: a JavaScript [throw] keeps the assignments made before it, and
    [try { .. } catch (error) { .. }] is [try_catch].  What the libraries do is
    kept to the minimum the handlers rely on, and written out where it is
    assumed:
    - a frame on a socket is either a JSON document or text that [JSON.parse]
      rejects; [JSON.stringify] of a value is the frame carrying that document;
    - JavaScript numbers are exact rationals (no rounding); the statements
      depend on a number only through its being zero or not;
    - [ws.send] hands the frame over when the socket is [OPEN] and raises
      otherwise; [dealer.send] raises while the link is [Down];
    - an exception no handler catches ends the process;
    - [Math.random] and [new Date()] are read from the environment, which
      supplies them with every timer tick.

    The static route [/] and the SIGINT handler touch none of the three
    variables before the process ends and are left out. *)

From Stdlib Require Import List String Ascii Bool Arith ZArith QArith Qround Lia Lqa.
Import ListNotations.

Open Scope string_scope.
Open Scope list_scope.
#[local] Set Warnings "-register-all".

(** ** JavaScript values *)

(** What [JSON.parse] can produce, and all the program ever stores.  An object
    keeps its properties in source order. *)
Inductive JValue : Type :=
| JNull
| JBool (b : bool)
| JNum (q : Q)
| JString (s : string)
| JArray (items : list JValue)
| JObject (fields : list (string * JValue)).

(** A value read out of a property may be [undefined]. *)
Definition JsVal : Type := option JValue.
Definition undefined : JsVal := None.

Inductive JsError : Type :=
| SyntaxError      (* JSON.parse on text that is not JSON *)
| TypeError        (* property read on null / undefined *)
| NotOpened        (* ws.send on a socket that is not OPEN *)
| ZmqError.        (* raised by the zeromq binding *)

Inductive Completion (A : Type) : Type :=
| Normal (a : A)
| Thrown (e : JsError).
Arguments Normal {A} a.
Arguments Thrown {A} e.

Fixpoint assoc (k : string) (fields : list (string * JValue)) : JsVal :=
  match fields with
  | [] => undefined
  | (k', v) :: rest => if String.eqb k k' then Some v else assoc k rest
  end.

(** [v.k].  Reading a property of [null] raises; of a record it looks the key
    up; the primitives and arrays have none of the keys this program reads
    ([symbol], [bid], [type], [command], [params]). *)
Definition prop (v : JValue) (k : string) : Completion JsVal :=
  match v with
  | JNull => Thrown TypeError
  | JObject fields => Normal (assoc k fields)
  | _ => Normal undefined
  end.

(** [if (v)] / [!v]. *)
Definition truthy (v : JsVal) : bool :=
  match v with
  | None => false
  | Some JNull => false
  | Some (JBool b) => b
  | Some (JNum q) => negb (Qeq_bool q 0)
  | Some (JString s) => negb (String.eqb s "")
  | Some (JArray _) => true
  | Some (JObject _) => true
  end.

(** [v === 0]. *)
Definition is_zero (v : JsVal) : bool :=
  match v with
  | Some (JNum q) => Qeq_bool q 0
  | _ => false
  end.

(** [v === 'text'], the comparison a [switch] makes. *)
Definition is_string (v : JsVal) (text : string) : bool :=
  match v with
  | Some (JString s) => String.eqb s text
  | _ => false
  end.

(** An object literal whose property values may be [undefined]:
    [JSON.stringify] leaves such properties out. *)
Fixpoint literal (fields : list (string * JsVal)) : list (string * JValue) :=
  match fields with
  | [] => []
  | (k, Some v) :: rest => (k, v) :: literal rest
  | (_, None) :: rest => literal rest
  end.

(** ** Frames *)

Inductive Frame : Type :=
| Garbled (raw : string)
| Document (doc : JValue).

Definition JSON_parse (message : Frame) : Completion JValue :=
  match message with
  | Garbled _ => Thrown SyntaxError
  | Document doc => Normal doc
  end.

Definition JSON_stringify (v : JValue) : Frame := Document v.

(** ** The process state *)

Definition WebSocket : Type := nat.
Bind Scope nat_scope with WebSocket.

Inductive ReadyState : Type := CONNECTING | OPEN | CLOSING | CLOSED.

Definition is_open (r : ReadyState) : bool :=
  match r with OPEN => true | _ => false end.

(** Whether [dealer.send] currently goes through. *)
Inductive Link : Type := Up | Down.

Inductive ZmqCall : Type :=
| ZSocket (ok : bool)                 (* zmq.socket('dealer') *)
| ZConnect (ok : bool)                (* dealer.connect(..) *)
| ZSend (message : Frame) (ok : bool). (* dealer.send(message) *)

Inductive LogArg : Type :=
| NoArg
| Value (v : JValue)
| Text (message : Frame)
| Caught (error : JsError).

Inductive LogLine : Type :=
| Info (text : string) (arg : LogArg)     (* console.log *)
| Error (text : string) (arg : LogArg).   (* console.error *)

Record Server : Type := {
  dealer : option Link;                 (* [let dealer], undefined when zmq.socket raised *)
  marketData : JValue;                  (* [let marketData] *)
  clients : list WebSocket;             (* [const clients = new Set()], in insertion order *)
  readyState : WebSocket -> ReadyState; (* [ws.readyState] of every socket *)
  wire : list (WebSocket * Frame);      (* frames handed to ws.send, oldest first *)
  zmq : list ZmqCall;                   (* calls made on the zeromq binding, oldest first *)
  console : list LogLine                (* console output, oldest first *)
}.

Definition with_dealer (d : option Link) (s : Server) : Server :=
  {| dealer := d; marketData := marketData s; clients := clients s;
     readyState := readyState s; wire := wire s; zmq := zmq s; console := console s |}.

Definition with_marketData (v : JValue) (s : Server) : Server :=
  {| dealer := dealer s; marketData := v; clients := clients s;
     readyState := readyState s; wire := wire s; zmq := zmq s; console := console s |}.

Definition with_clients (cs : list WebSocket) (s : Server) : Server :=
  {| dealer := dealer s; marketData := marketData s; clients := cs;
     readyState := readyState s; wire := wire s; zmq := zmq s; console := console s |}.

Definition with_readyState (r : WebSocket -> ReadyState) (s : Server) : Server :=
  {| dealer := dealer s; marketData := marketData s; clients := clients s;
     readyState := r; wire := wire s; zmq := zmq s; console := console s |}.

Definition with_wire (w : list (WebSocket * Frame)) (s : Server) : Server :=
  {| dealer := dealer s; marketData := marketData s; clients := clients s;
     readyState := readyState s; wire := w; zmq := zmq s; console := console s |}.

Definition with_zmq (z : list ZmqCall) (s : Server) : Server :=
  {| dealer := dealer s; marketData := marketData s; clients := clients s;
     readyState := readyState s; wire := wire s; zmq := z; console := console s |}.

Definition with_console (c : list LogLine) (s : Server) : Server :=
  {| dealer := dealer s; marketData := marketData s; clients := clients s;
     readyState := readyState s; wire := wire s; zmq := zmq s; console := c |}.

(** ** The monad of callbacks *)

Definition Js (A : Type) : Type := Server -> Completion A * Server.

Definition ret {A} (a : A) : Js A := fun s => (Normal a, s).

Definition bind {A B} (m : Js A) (k : A -> Js B) : Js B :=
  fun s => match m s with
           | (Normal a, s') => k a s'
           | (Thrown e, s') => (Thrown e, s')
           end.

Definition throw {A} (e : JsError) : Js A := fun s => (Thrown e, s).

(** A pure step that may raise. *)
Definition lift {A} (c : Completion A) : Js A := fun s => (c, s).

Definition gets {A} (f : Server -> A) : Js A := fun s => (Normal (f s), s).

Definition modify (f : Server -> Server) : Js unit := fun s => (Normal tt, f s).

(** [try { body } catch (error) { handler }]: whatever [body] had assigned
    before raising stays assigned. *)
Definition try_catch (body : Js unit) (handler : JsError -> Js unit) : Js unit :=
  fun s => match body s with
           | (Normal tt, s') => (Normal tt, s')
           | (Thrown e, s') => handler e s'
           end.

Declare Scope js_scope.
Delimit Scope js_scope with js.
Notation "x <- m ;; k" := (bind m (fun x => k))
  (at level 61, m at next level, right associativity) : js_scope.
Notation "m ;; k" := (bind m (fun _ => k))
  (at level 61, right associativity) : js_scope.
Open Scope js_scope.

Definition console_log (text : string) (arg : LogArg) : Js unit :=
  modify (fun s => with_console (console s ++ [Info text arg]) s).

Definition console_error (text : string) (arg : LogArg) : Js unit :=
  modify (fun s => with_console (console s ++ [Error text arg]) s).

(** ** Library calls *)

(** [ws.send(data)]. *)
Definition ws_send (ws : WebSocket) (data : Frame) : Js unit :=
  fun s => if is_open (readyState s ws)
           then (Normal tt, with_wire (wire s ++ [(ws, data)]) s)
           else (Thrown NotOpened, s).

(** [dealer.send(message)]. *)
Definition dealer_send (message : Frame) : Js unit :=
  fun s => match dealer s with
           | None => (Thrown TypeError, s)
           | Some Up => (Normal tt, with_zmq (zmq s ++ [ZSend message true]) s)
           | Some Down => (Thrown ZmqError, with_zmq (zmq s ++ [ZSend message false]) s)
           end.

(** [clients.add(ws)] and [clients.delete(ws)] on the insertion-ordered Set. *)
Definition Set_add (ws : WebSocket) (cs : list WebSocket) : list WebSocket :=
  if existsb (Nat.eqb ws) cs then cs else cs ++ [ws].

Definition Set_delete (ws : WebSocket) (cs : list WebSocket) : list WebSocket :=
  filter (fun c => negb (Nat.eqb ws c)) cs.

(** [clients.forEach(callback)]. *)
Fixpoint forEach (callback : WebSocket -> Js unit) (cs : list WebSocket) : Js unit :=
  match cs with
  | [] => ret tt
  | client :: rest => callback client ;; forEach callback rest
  end.

(** ** The functions of server.js *)

(** The snapshot the process starts with (lines 38-47); [time] is the clock
    reading at start-up. *)
Definition initial_marketData (time : string) : JValue :=
  JObject [("symbol", JString "EURUSD");
           ("bid", JNum 0);
           ("ask", JNum 0);
           ("time", JString time);
           ("balance", JNum 10000);
           ("equity", JNum 10000);
           ("margin", JNum 0);
           ("zones", JArray [])].

Definition market_data_message (snapshot : JValue) : Frame :=
  JSON_stringify (JObject [("type", JString "market_data"); ("data", snapshot)]).

(** [function sendToMT4(command, params)] (lines 94-108). *)
Definition sendToMT4 (command params : JsVal) : Js unit :=
  d <- gets dealer ;;
  match d with
  | None => ret tt
  | Some _ =>
      try_catch
        (let message := JSON_stringify
                          (JObject (literal [("command", command); ("params", params)])) in
         dealer_send message ;;
         console_log "Sent to MT4:" (Text message))
        (fun error => console_error "Error sending to MT4:" (Caught error))
  end.

(** The mock history of [sendTradeHistory] (lines 114-139). *)
Definition history : JValue :=
  JArray [
    JObject [("ticket", JNum 12345);
             ("symbol", JString "EURUSD");
             ("type", JString "BUY");
             ("openTime", JString "2025-04-16T10:30:00Z");
             ("closeTime", JString "2025-04-16T14:45:00Z");
             ("lots", JNum 0.1);
             ("openPrice", JNum 1.0765);
             ("closePrice", JNum 1.0792);
             ("profit", JNum 27.0);
             ("pips", JNum 27)];
    JObject [("ticket", JNum 12346);
             ("symbol", JString "EURUSD");
             ("type", JString "SELL");
             ("openTime", JString "2025-04-15T15:20:00Z");
             ("closeTime", JString "2025-04-15T17:35:00Z");
             ("lots", JNum 0.1);
             ("openPrice", JNum 1.0805);
             ("closePrice", JNum 1.0783);
             ("profit", JNum 22.0);
             ("pips", JNum 22)]].

Definition history_data_message : Frame :=
  JSON_stringify (JObject [("type", JString "history_data"); ("data", history)]).

(** [function sendTradeHistory(ws)] (lines 111-145). *)
Definition sendTradeHistory (ws : WebSocket) : Js unit :=
  ws_send ws history_data_message.

(** [function broadcastMarketData()] (lines 168-179). *)
Definition broadcastMarketData : Js unit :=
  snapshot <- gets marketData ;;
  let message := market_data_message snapshot in
  cs <- gets clients ;;
  forEach (fun client =>
             state <- gets (fun s => readyState s client) ;;
             if is_open state then ws_send client message else ret tt)
          cs.

(** [dealer.on('message', ..)] (lines 149-164). *)
Definition dealer_on_message (message : Frame) : Js unit :=
  try_catch
    (data <- lift (JSON_parse message) ;;
     console_log "Received from MT4:" (Value data) ;;
     symbol <- lift (prop data "symbol") ;;
     if truthy symbol
     then modify (with_marketData data) ;; broadcastMarketData
     else ret tt)
    (fun error => console_error "Error processing MT4 message:" (Caught error)).

(** [ws.on('message', ..)] (lines 64-84). *)
Definition ws_on_message (ws : WebSocket) (message : Frame) : Js unit :=
  try_catch
    (msg <- lift (JSON_parse message) ;;
     console_log "Received:" (Value msg) ;;
     type <- lift (prop msg "type") ;;
     if is_string type "command" then
       command <- lift (prop msg "command") ;;
       params <- lift (prop msg "params") ;;
       sendToMT4 command params
     else if is_string type "get_history" then
       sendTradeHistory ws
     else ret tt)
    (fun error => console_error "Error processing message:" (Caught error)).

(** [ws.on('close', ..)] (lines 87-90). *)
Definition ws_on_close (ws : WebSocket) : Js unit :=
  console_log "Client disconnected" NoArg ;;
  modify (fun s => with_clients (Set_delete ws (clients s)) s).

(** [wss.on('connection', ..)] (lines 53-91), up to the registration of the
    two per-socket handlers above. *)
Definition wss_on_connection (ws : WebSocket) : Js unit :=
  console_log "Client connected" NoArg ;;
  modify (fun s => with_clients (Set_add ws (clients s)) s) ;;
  snapshot <- gets marketData ;;
  ws_send ws (market_data_message snapshot).

(** What one timer tick reads from the environment, in the order the callback
    of [simulateMarketData] evaluates it. *)
Record Draws : Type := {
  random_movement : Q;
  now_time : string;
  random_balance : Q;
  random_equity : Q;
  random_margin : Q;
  random_positions : Q;
  now_zone1 : string;
  now_zone2 : string
}.

Definition basePrice : Q := 1.0750.

Definition simulated_bid (e : Draws) : Q :=
  basePrice + (random_movement e - 0.5) * 0.0020.

Definition simulated_marketData (e : Draws) : JValue :=
  let bid := simulated_bid e in
  let ask := bid + 0.0002 in
  JObject [("symbol", JString "EURUSD");
           ("bid", JNum bid);
           ("ask", JNum ask);
           ("time", JString (now_time e));
           ("balance", JNum (10000 + (random_balance e - 0.3) * 500));
           ("equity", JNum (10000 + (random_equity e - 0.3) * 500));
           ("margin", JNum (random_margin e * 200));
           ("positions", JNum (inject_Z (Qfloor (random_positions e * 2))));
           ("zones", JArray [
              JObject [("price", JNum (basePrice + 0.0050));
                       ("isSupply", JBool true);
                       ("strength", JNum 0.85);
                       ("time", JString (now_zone1 e))];
              JObject [("price", JNum (basePrice - 0.0060));
                       ("isSupply", JBool false);
                       ("strength", JNum 0.78);
                       ("time", JString (now_zone2 e))]])].

(** The callback [simulateMarketData] hands to [setInterval] (lines 183-218). *)
Definition simulate_tick (e : Draws) : Js unit :=
  snapshot <- gets marketData ;;
  bid <- lift (prop snapshot "bid") ;;
  if is_zero bid
  then modify (with_marketData (simulated_marketData e)) ;; broadcastMarketData
  else ret tt.

Record Response : Type := {
  status : nat;
  body : JValue
}.

(** [app.get('/api/market-data', ..)] (lines 226-228). *)
Definition api_market_data : Js Response :=
  snapshot <- gets marketData ;;
  ret {| status := 200; body := snapshot |}.

(** [app.post('/api/command', ..)] (lines 230-239); [req_body] is what
    [express.json()] made of the request. *)
Definition api_command (req_body : JValue) : Js Response :=
  command <- lift (prop req_body "command") ;;
  params <- lift (prop req_body "params") ;;
  if negb (truthy command)
  then ret {| status := 400;
              body := JObject [("error", JString "Command is required")] |}
  else
    sendToMT4 command params ;;
    ret {| status := 200;
           body := JObject [("success", JBool true);
                            ("message", JString "Command sent")] |}.

(** ** Start-up and the event loop *)

(** What the environment decides at start-up. *)
Record Boot : Type := {
  socket_ok : bool;     (* zmq.socket('dealer') returns *)
  connect_ok : bool;    (* dealer.connect(..) returns *)
  boot_time : string;   (* new Date().toISOString() *)
  PORT : string
}.

Definition zmq_socket (b : Boot) : Js unit :=
  fun s => if socket_ok b
           then (Normal tt, with_dealer (Some Down) (with_zmq (zmq s ++ [ZSocket true]) s))
           else (Thrown ZmqError, with_zmq (zmq s ++ [ZSocket false]) s).

Definition dealer_connect (b : Boot) : Js unit :=
  fun s => if connect_ok b
           then (Normal tt, with_dealer (Some Up) (with_zmq (zmq s ++ [ZConnect true]) s))
           else (Thrown ZmqError, with_zmq (zmq s ++ [ZConnect false]) s).

(** Lines 28-35. *)
Definition setup_dealer (b : Boot) : Js unit :=
  try_catch
    (zmq_socket b ;;
     dealer_connect b ;;
     console_log "Connected to MT4 at 127.0.0.1:5555" NoArg)
    (fun error => console_error "Failed to connect to MetaTrader:" (Caught error)).

Definition fresh (b : Boot) : Server :=
  {| dealer := None;
     marketData := initial_marketData (boot_time b);
     clients := [];
     readyState := fun _ => CONNECTING;
     wire := [];
     zmq := [];
     console := [] |}.

(** The top level of the script, through the [server.listen] callback. *)
Definition startup (b : Boot) : Server :=
  snd ((setup_dealer b ;;
        console_log ("Server running on port " ++ PORT b)%string NoArg) (fresh b)).

Inductive Event : Type :=
| Connection (ws : WebSocket)               (* a client completes the handshake *)
| Message (ws : WebSocket) (message : Frame) (* a client frame arrives *)
| Closing (ws : WebSocket)                  (* a socket starts closing *)
| Close (ws : WebSocket)                    (* a socket is closed *)
| Upstream (message : Frame)                (* a frame arrives on the dealer socket *)
| LinkIs (l : Link)                         (* the zeromq link comes up or goes down *)
| Tick (e : Draws)                          (* the two-second timer fires *)
| GetMarketData                             (* GET /api/market-data *)
| PostCommand (req_body : JValue).          (* POST /api/command *)

Definition set_readyState (ws : WebSocket) (r : ReadyState) (s : Server) : Server :=
  with_readyState (fun c => if Nat.eqb c ws then r else readyState s c) s.

(** A callback run by the event loop: an exception it lets through ends the
    process. *)
Definition callback (m : Js unit) (s : Server) : option Server :=
  match m s with
  | (Normal tt, s') => Some s'
  | (Thrown _, _) => None
  end.

(** A route run by Express, which answers 500 itself when the route raises;
    either way the reply goes to the HTTP client and the process goes on. *)
Definition route (m : Js Response) (s : Server) : option Server :=
  Some (snd (m s)).

(** The event loop dispatches more than the libraries would (a [Message] for
    a socket that never connected, say): every run of the program is a run of
    the model. *)
Definition step (ev : Event) (s : Server) : option Server :=
  match ev with
  | Connection ws => callback (wss_on_connection ws) (set_readyState ws OPEN s)
  | Message ws message => callback (ws_on_message ws message) s
  | Closing ws => Some (set_readyState ws CLOSING s)
  | Close ws => callback (ws_on_close ws) (set_readyState ws CLOSED s)
  | Upstream message =>
      match dealer s with
      | Some _ => callback (dealer_on_message message) s   (* [if (dealer)], line 148 *)
      | None => Some s
      end
  | LinkIs l =>
      match dealer s with
      | Some _ => Some (with_dealer (Some l) s)
      | None => Some s
      end
  | Tick e => callback (simulate_tick e) s
  | GetMarketData => route api_market_data s
  | PostCommand req_body => route (api_command req_body) s
  end.

Fixpoint run (evs : list Event) (s : Server) : option Server :=
  match evs with
  | [] => Some s
  | ev :: rest =>
      match step ev s with
      | Some s' => run rest s'
      | None => None
      end
  end.

(** ** Vocabulary of the statements *)

(** The registered sessions whose socket is open, in registration order. *)
Definition open_clients (s : Server) : list WebSocket :=
  filter (fun c => is_open (readyState s c)) (clients s).

(** One copy of [message] for every open registered session. *)
Definition fan_out (s : Server) (message : Frame) : list (WebSocket * Frame) :=
  map (fun c => (c, message)) (open_clients s).

(** The frames [m] hands to [ws.send] when run in [s]. *)
Definition sent_by {A} (m : Js A) (s : Server) : list (WebSocket * Frame) :=
  skipn (List.length (wire s)) (wire (snd (m s))).

(** The arrow function [broadcastMarketData] passes to [clients.forEach]. *)
Definition offer (message : Frame) (client : WebSocket) : Js unit :=
  state <- gets (fun s => readyState s client) ;;
  if is_open state then ws_send client message else ret tt.

(** One more console line. *)
Definition note (line : LogLine) (s : Server) : Server :=
  with_console (console s ++ [line]) s.

(** The console lines of the two message handlers. *)
Definition received (data : JValue) : LogLine := Info "Received from MT4:" (Value data).

Definition rejected (error : JsError) : LogLine :=
  Error "Error processing MT4 message:" (Caught error).

Definition heard (msg : JValue) : LogLine := Info "Received:" (Value msg).

Definition failed (error : JsError) : LogLine :=
  Error "Error processing message:" (Caught error).

(** The frames the dealer handler takes for a snapshot: a JSON record whose
    [symbol] property is truthy. *)
Definition snapshot_update (message : Frame) : bool :=
  match message with
  | Document (JObject fields) => truthy (assoc "symbol" fields)
  | _ => false
  end.

(** The frames that parse as a record containing a [symbol] property. *)
Definition has_symbol_field (message : Frame) : bool :=
  match message with
  | Document (JObject fields) =>
      match assoc "symbol" fields with Some _ => true | None => false end
  | _ => false
  end.

(** The dealer handler run on a sequence of frames, in arrival order. *)
Definition apply_updates (messages : list Frame) (s : Server) : Server :=
  fold_left (fun s message => snd (dealer_on_message message s)) messages s.

(** The frame [sendToMT4] builds for the upstream. *)
Definition command_message (command params : JsVal) : Frame :=
  JSON_stringify (JObject (literal [("command", command); ("params", params)])).

(** The frames the zeromq binding accepted. *)
Fixpoint transmitted (calls : list ZmqCall) : list Frame :=
  match calls with
  | [] => []
  | ZSend message true :: rest => message :: transmitted rest
  | _ :: rest => transmitted rest
  end.

(** How often [dealer.connect] was called. *)
Fixpoint connect_attempts (calls : list ZmqCall) : nat :=
  match calls with
  | [] => 0
  | ZConnect _ :: rest => S (connect_attempts rest)
  | _ :: rest => connect_attempts rest
  end.

(** The upstream is out of reach: no dealer socket, or one whose [send] raises. *)
Definition disconnected (s : Server) : bool :=
  match dealer s with
  | Some Up => false
  | _ => true
  end.

(** The two replies of POST /api/command. *)
Definition command_sent : Response :=
  {| status := 200;
     body := JObject [("success", JBool true); ("message", JString "Command sent")] |}.

Definition command_required : Response :=
  {| status := 400;
     body := JObject [("error", JString "Command is required")] |}.

(** A reply of the shape [{success: bool, message: string}]. *)
Definition success_shape (r : Response) : bool :=
  match body r with
  | JObject [("success", JBool _); ("message", JString _)] => true
  | _ => false
  end.

(** An error reply: a 4xx/5xx status, or the 500 Express sends for a route
    that raised. *)
Definition is_error (r : Completion Response) : bool :=
  match r with
  | Normal r => (400 <=? status r)%nat
  | Thrown _ => true
  end.

(** A record of the mock history: the ten fields of a trade, in order. *)
Definition is_trade_record (v : JValue) : bool :=
  match v with
  | JObject [("ticket", JNum _); ("symbol", JString _); ("type", JString _);
             ("openTime", JString _); ("closeTime", JString _); ("lots", JNum _);
             ("openPrice", JNum _); ("closePrice", JNum _); ("profit", JNum _);
             ("pips", JNum _)] => true
  | _ => false
  end.

Definition is_record (v : JValue) : bool :=
  match v with JObject _ => true | _ => false end.

(** Events that cannot assign [marketData]: everything but a timer tick and
    an upstream snapshot. *)
Definition quiet (ev : Event) : bool :=
  match ev with
  | Tick _ => false
  | Upstream message => negb (snapshot_update message)
  | _ => true
  end.

(** [snapshot.bid === 0] and its negation, for a snapshot the timer callback
    can read. *)
Definition bid_is_zero (snapshot : JValue) : bool :=
  match prop snapshot "bid" with
  | Normal bid => is_zero bid
  | Thrown _ => false
  end.

Definition bid_is_nonzero (snapshot : JValue) : bool :=
  match prop snapshot "bid" with
  | Normal bid => negb (is_zero bid)
  | Thrown _ => false
  end.

(** [Math.random()] lies in [0, 1). *)
Definition in_unit_interval (r : Q) : Prop := 0 <= r /\ r < 1.

(** Events after which a nonzero bid is still nonzero: all but an upstream
    snapshot whose own bid is not a nonzero value. *)
Definition spares_bid (ev : Event) : bool :=
  match ev with
  | Upstream (Document data) =>
      if snapshot_update (Document data) then bid_is_nonzero data else true
  | _ => true
  end.

(** ** Concrete runs used in the examples *)

(** Start-up with the upstream reachable, with no zeromq socket at all, and
    with a socket whose [connect] raised. *)
Definition demo_boot : Boot :=
  {| socket_ok := true; connect_ok := true;
     boot_time := "2025-04-16T10:00:00.000Z"; PORT := "3000" |}.

Definition offline_boot : Boot :=
  {| socket_ok := false; connect_ok := false;
     boot_time := "2025-04-16T10:00:00.000Z"; PORT := "3000" |}.

Definition refused_boot : Boot :=
  {| socket_ok := true; connect_ok := false;
     boot_time := "2025-04-16T10:00:00.000Z"; PORT := "3000" |}.

Definition demo_draws : Draws :=
  {| random_movement := 0.25; now_time := "2025-04-16T10:00:02.000Z";
     random_balance := 0.5; random_equity := 0.75; random_margin := 0.125;
     random_positions := 0.6;
     now_zone1 := "2025-04-16T10:00:02.000Z";
     now_zone2 := "2025-04-16T10:00:02.000Z" |}.

(** The state [evs] lead to after start-up [b]. *)
Definition after (evs : list Event) (b : Boot) : Server :=
  match run evs (startup b) with
  | Some s => s
  | None => startup b
  end.

(** An upstream snapshot. *)
Definition quote (bid : Q) : JValue :=
  JObject [("symbol", JString "EURUSD"); ("bid", JNum bid); ("ask", JNum (bid + 0.0002))].

(** Three sessions, the middle one half-way through closing. *)
Definition three_clients : Server :=
  after [Connection 1; Connection 2; Connection 3; Closing 2] demo_boot.

(** The dealer socket exists, but the link has dropped. *)
Definition link_lost : Server := after [Connection 1; LinkIs Down] demo_boot.

(** One session, and a live quote stored. *)
Definition live : Server :=
  after [Connection 1; Upstream (Document (quote 1.0750))] demo_boot.

Definition empty_symbol : Frame :=
  Document (JObject [("symbol", JString ""); ("bid", JNum 1.0750)]).

Definition buy_order : JValue :=
  JObject [("command", JString "BUY");
           ("params", JObject [("lots", JNum 0.1)])].

Definition blank_order : JValue :=
  JObject [("command", JString ""); ("params", JObject [])].

Definition get_history : Frame := Document (JObject [("type", JString "get_history")]).

(** An upstream quote, then an upstream snapshot whose bid is 0, then the
    timer. *)
Definition zero_quote_then_tick : list Event :=
  [Upstream (Document (quote 1.0750)); Upstream (Document (quote 0)); Tick demo_draws].

(** ** Vocabulary of the further properties *)

(** The two kinds of frame the program writes to a client socket. *)
Definition typed_frame (m : Frame) : Prop :=
  m = history_data_message \/ exists snapshot, m = market_data_message snapshot.

(** A call on the zeromq binding that, if it is a [send], carries a
    [{command, params}] document. *)
Definition command_call (call : ZmqCall) : Prop :=
  match call with
  | ZSend m _ => exists command params, m = command_message command params
  | _ => True
  end.

(** A socket that has connected and is not closed yet. *)
Definition live_socket (r : ReadyState) : bool :=
  match r with
  | OPEN | CLOSING => true
  | _ => false
  end.

Definition is_tick (ev : Event) : bool :=
  match ev with
  | Tick _ => true
  | _ => false
  end.

(** The event is a new connection of [ws]. *)
Definition connects (ws : WebSocket) (ev : Event) : bool :=
  match ev with
  | Connection c => Nat.eqb c ws
  | _ => false
  end.

(** A client frame the [switch] of the message handler has no case for:
    text that is not JSON, a value that is not a record, or a record whose
    [type] is neither 'command' nor 'get_history'. *)
Definition unhandled_request (message : Frame) : bool :=
  match message with
  | Document (JObject fields) =>
      negb (is_string (assoc "type" fields) "command")
      && negb (is_string (assoc "type" fields) "get_history")
  | _ => true
  end.

(** The frames written to client sockets since [s]. *)
Definition written_since (s s' : Server) : list (WebSocket * Frame) :=
  skipn (List.length (wire s)) (wire s').

(** Every registered socket has connected and is not closed. *)
Definition registry_live (s : Server) : Prop :=
  forall c, In c (clients s) -> live_socket (readyState s c) = true.

(** The documents of the snapshot updates among [messages], in order. *)
Fixpoint snapshots (messages : list Frame) : list JValue :=
  match messages with
  | [] => []
  | Document data :: rest =>
      if snapshot_update (Document data) then data :: snapshots rest else snapshots rest
  | Garbled _ :: rest => snapshots rest
  end.

(** The frames addressed to [c] among [frames], in order. *)
Definition frames_to (c : WebSocket) (frames : list (WebSocket * Frame)) : list Frame :=
  map snd (filter (fun p => Nat.eqb (fst p) c) frames).

(** The line [setup_dealer] writes when the upstream cannot be reached. *)
Definition connect_failed : LogLine :=
  Error "Failed to connect to MetaTrader:" (Caught ZmqError).

(** * Proofs *)

(** ** Field updates *)

Lemma with_wire_same (s : Server) : with_wire (wire s) s = s.
Proof. destruct s; reflexivity. Qed.

Lemma with_wire_nil (s : Server) : with_wire (wire s ++ []) s = s.
Proof. rewrite app_nil_r. apply with_wire_same. Qed.

Lemma skipn_length_app {A} (l r : list A) : skipn (List.length l) (l ++ r) = r.
Proof. induction l as [|x l IH]; simpl; auto. Qed.

(** ** The monad laws, pointwise *)

Section Laws.
Context {A B C : Type}.
Variables (m : Js A) (k : A -> Js B) (h : B -> Js C).

Lemma bind_ret_l (a : A) (s : Server) : (x <- ret a ;; k x) s = k a s.
Proof. reflexivity. Qed.

Lemma bind_ret_r (s : Server) : (x <- m ;; ret x) s = m s.
Proof. unfold bind, ret. now destruct (m s) as [[a|e] s']. Qed.

Lemma bind_assoc (s : Server) :
  (y <- (x <- m ;; k x) ;; h y) s = (x <- m ;; y <- k x ;; h y) s.
Proof. unfold bind. now destruct (m s) as [[a|e] s']. Qed.

Lemma bind_throw (e : JsError) (s : Server) : (x <- throw e ;; k x) s = throw e s.
Proof. reflexivity. Qed.
End Laws.

Lemma try_catch_throw (e : JsError) (handler : JsError -> Js unit) (s : Server) :
  try_catch (throw e) handler s = handler e s.
Proof. reflexivity. Qed.

Lemma try_catch_normal (body : Js unit) (handler : JsError -> Js unit) (s : Server) :
  fst (body s) = Normal tt -> try_catch body handler s = body s.
Proof.
  unfold try_catch. destruct (body s) as [[[]|e] s']; cbn [fst]; congruence.
Qed.

(** ** Broadcast *)

Lemma offer_eq (message : Frame) (c : WebSocket) (s : Server) :
  offer message c s =
  if is_open (readyState s c)
  then (Normal tt, with_wire (wire s ++ [(c, message)]) s)
  else (Normal tt, s).
Proof.
  unfold offer, bind, gets, ws_send, ret.
  destruct (is_open (readyState s c)) eqn:E; rewrite ?E; reflexivity.
Qed.

Lemma forEach_offer (message : Frame) (cs : list WebSocket) (s : Server) :
  forEach (offer message) cs s =
  (Normal tt,
   with_wire (wire s ++ map (fun c => (c, message))
                            (filter (fun c => is_open (readyState s c)) cs)) s).
Proof.
  revert s. induction cs as [|c cs IH]; intros s.
  - simpl. unfold ret. now rewrite with_wire_nil.
  - cbn [forEach filter]. unfold bind. rewrite offer_eq.
    destruct (is_open (readyState s c)) eqn:Hc; rewrite IH.
    + cbn [map readyState with_wire wire]. now rewrite <- app_assoc.
    + reflexivity.
Qed.

Lemma broadcastMarketData_eq (s : Server) :
  broadcastMarketData s =
  (Normal tt, with_wire (wire s ++ fan_out s (market_data_message (marketData s))) s).
Proof.
  unfold broadcastMarketData, bind, gets.
  change (fun client : WebSocket => _) with (offer (market_data_message (marketData s))).
  apply forEach_offer.
Qed.

Lemma in_fan_out (s : Server) (message : Frame) (c : WebSocket) (m : Frame) :
  In (c, m) (fan_out s message) <->
  m = message /\ In c (clients s) /\ readyState s c = OPEN.
Proof.
  unfold fan_out, open_clients. rewrite in_map_iff. split.
  - intros (c' & Heq & Hin). injection Heq as -> ->.
    apply filter_In in Hin as [Hin Hopen].
    destruct (readyState s c) eqn:Hr; try discriminate. auto.
  - intros (-> & Hin & Hopen). exists c. split; [reflexivity|].
    apply filter_In. split; [assumption|]. now rewrite Hopen.
Qed.

(** C4.  A broadcast hands the [{type: "market_data", data: marketData}]
    frame to [ws.send] once for every registered session whose socket is
    [OPEN], in registration order, and to nobody else; it never raises, so a
    session that is connecting, closing or closed holds nobody back: an open
    session gets its copy whatever the state of the others. *)
Theorem broadcast_reaches_every_open_client (s : Server) :
  let message := market_data_message (marketData s) in
  fst (broadcastMarketData s) = Normal tt /\
  sent_by broadcastMarketData s = fan_out s message /\
  (forall c, In c (clients s) -> readyState s c = OPEN ->
             In (c, message) (sent_by broadcastMarketData s)) /\
  (forall c m, In (c, m) (sent_by broadcastMarketData s) ->
               m = message /\ readyState s c = OPEN) /\
  message = Document (JObject [("type", JString "market_data");
                               ("data", marketData s)]).
Proof.
  intros message. unfold sent_by. rewrite broadcastMarketData_eq.
  cbn [fst snd wire with_wire]. rewrite skipn_length_app.
  split; [reflexivity|]. split; [reflexivity|]. split; [|split; [|reflexivity]].
  - intros c Hin Hopen. apply in_fan_out. auto.
  - intros c m Hin. apply in_fan_out in Hin. tauto.
Qed.

Lemma broadcast_reaches_every_open_client_witness :
  (In 1%nat (clients three_clients) /\ readyState three_clients 1 = OPEN) /\
  (In 3%nat (clients three_clients) /\ readyState three_clients 3 = OPEN) /\
  readyState three_clients 2 = CLOSING /\
  In (1%nat, market_data_message (marketData three_clients))
     (sent_by broadcastMarketData three_clients) /\
  In (3%nat, market_data_message (marketData three_clients))
     (sent_by broadcastMarketData three_clients).
Proof.
  assert (H1 : In 1%nat (clients three_clients)) by (vm_compute; auto).
  assert (H3 : In 3%nat (clients three_clients)) by (vm_compute; auto).
  assert (O1 : readyState three_clients 1 = OPEN) by reflexivity.
  assert (O3 : readyState three_clients 3 = OPEN) by reflexivity.
  repeat split; try assumption.
  - exact (proj1 (proj2 (proj2 (broadcast_reaches_every_open_client three_clients))) 1%nat H1 O1).
  - exact (proj1 (proj2 (proj2 (broadcast_reaches_every_open_client three_clients))) 3%nat H3 O3).
Defined.

(** ** Upstream messages *)

Lemma dealer_on_message_update (data : JValue) (s : Server) :
  snapshot_update (Document data) = true ->
  dealer_on_message (Document data) s =
  (Normal tt,
   with_wire (wire s ++ fan_out s (market_data_message data))
     (with_marketData data (with_console (console s ++ [received data]) s))).
Proof.
  intros Hup. destruct data as [| | | | |fields]; try discriminate.
  cbn [snapshot_update] in Hup.
  unfold dealer_on_message, try_catch, bind at 1, lift, JSON_parse.
  unfold bind at 1, console_log, modify. unfold bind at 1, lift, prop.
  rewrite Hup. unfold bind, modify. rewrite broadcastMarketData_eq. reflexivity.
Qed.

Lemma dealer_on_message_other (message : Frame) (s : Server) :
  snapshot_update message = false ->
  dealer_on_message message s =
  (Normal tt,
   with_console
     (console s ++ match message with
                   | Garbled _ => [rejected SyntaxError]
                   | Document JNull => [received JNull; rejected TypeError]
                   | Document data => [received data]
                   end) s).
Proof.
  intros Hup. destruct message as [raw|data].
  - reflexivity.
  - destruct data as [| | | | |fields]; try reflexivity.
    + unfold dealer_on_message, try_catch, bind, lift, JSON_parse, console_log,
        console_error, modify, prop. cbn [with_console console].
      now rewrite <- app_assoc.
    + cbn [snapshot_update] in Hup.
      unfold dealer_on_message, try_catch, bind, lift, JSON_parse, console_log,
        modify, prop. now rewrite Hup.
Qed.

Lemma dealer_on_message_returns (message : Frame) (s : Server) :
  fst (dealer_on_message message s) = Normal tt.
Proof.
  destruct (snapshot_update message) eqn:Hup.
  - destruct message as [raw|data]; [discriminate|].
    now rewrite dealer_on_message_update.
  - now rewrite dealer_on_message_other.
Qed.

(** C1.  After any sequence of upstream frames that ends with a snapshot
    update, [marketData] is exactly the document of that last update, whatever
    was stored or received before (last writer wins, nothing is merged), and
    GET /api/market-data answers 200 with that same document and leaves the
    state alone. *)
Theorem last_writer_wins (s : Server) (earlier : list Frame) (data : JValue) :
  snapshot_update (Document data) = true ->
  let s' := apply_updates (earlier ++ [Document data]) s in
  marketData s' = data /\
  api_market_data s' = (Normal {| status := 200; body := data |}, s').
Proof.
  intros Hup s'.
  assert (Hmd : marketData s' = data).
  { unfold s', apply_updates. rewrite fold_left_app. cbn [fold_left].
    now rewrite dealer_on_message_update. }
  split; [exact Hmd|].
  unfold api_market_data, bind, gets, ret. now rewrite Hmd.
Qed.

Lemma last_writer_wins_witness :
  let s' := apply_updates [Document (quote 1.0750); Garbled "PING";
                           Document (quote 1.0761)] (startup demo_boot) in
  marketData s' = quote 1.0761 /\
  api_market_data s' = (Normal {| status := 200; body := quote 1.0761 |}, s').
Proof.
  exact (last_writer_wins (startup demo_boot)
           [Document (quote 1.0750); Garbled "PING"] (quote 1.0761) eq_refl).
Defined.

(** C3 as stated fails: a record that contains a [symbol] field whose value is
    the empty string is neither stored nor broadcast, although two sessions
    are open. *)
Lemma symbol_field_present_but_not_applied :
  has_symbol_field empty_symbol = true /\
  open_clients three_clients = [1%nat; 3%nat] /\
  marketData (snd (dealer_on_message empty_symbol three_clients))
    = initial_marketData (boot_time demo_boot) /\
  sent_by (dealer_on_message empty_symbol) three_clients = [].
Proof. repeat split; reflexivity. Qed.

(** C3, amended.  The dealer handler never lets an exception out.  It replaces
    [marketData] by the received document and broadcasts it to the open
    sessions exactly when the frame parses as a record whose [symbol] property
    is truthy.  Every other frame (text that is not JSON, [null], a record
    without [symbol] or with an empty, zero, false or null one, any other
    value) leaves [marketData] and the client sockets untouched and only adds
    console lines; for text that is not JSON that line is the error report. *)
Theorem upstream_message_applied_iff_truthy_symbol (message : Frame) (s : Server) :
  let s' := snd (dealer_on_message message s) in
  fst (dealer_on_message message s) = Normal tt /\
  (snapshot_update message = true ->
   exists data, message = Document data /\ marketData s' = data /\
     sent_by (dealer_on_message message) s = fan_out s (market_data_message data)) /\
  (snapshot_update message = false ->
   marketData s' = marketData s /\ wire s' = wire s /\ clients s' = clients s /\
   exists lines : list LogLine, lines <> [] /\ console s' = console s ++ lines) /\
  (forall raw, message = Garbled raw ->
   console s' = console s ++ [rejected SyntaxError]).
Proof.
  intros s'. split; [apply dealer_on_message_returns|]. split; [|split].
  - intros Hup. destruct message as [raw|data]; [discriminate|].
    exists data. unfold s', sent_by. rewrite dealer_on_message_update by exact Hup.
    cbn [snd marketData wire with_wire with_marketData].
    now rewrite skipn_length_app.
  - intros Hup. unfold s'. rewrite dealer_on_message_other by exact Hup.
    cbn [snd marketData wire clients console with_console]. repeat split.
    eexists. split; [|reflexivity].
    destruct message as [raw|[| | | | |]]; discriminate.
  - intros raw ->. reflexivity.
Qed.

Lemma upstream_message_applied_iff_truthy_symbol_witness :
  (exists data, Document (quote 1.0750) = Document data /\
     marketData (snd (dealer_on_message (Document (quote 1.0750)) three_clients)) = data /\
     sent_by (dealer_on_message (Document (quote 1.0750))) three_clients
       = fan_out three_clients (market_data_message data)) /\
  marketData (snd (dealer_on_message empty_symbol three_clients))
    = marketData three_clients /\
  console (snd (dealer_on_message (Garbled "PING") three_clients))
    = console three_clients ++ [rejected SyntaxError].
Proof.
  split; [|split].
  - exact (proj1 (proj2 (upstream_message_applied_iff_truthy_symbol
                           (Document (quote 1.0750)) three_clients)) eq_refl).
  - exact (proj1 (proj1 (proj2 (proj2 (upstream_message_applied_iff_truthy_symbol
                                         empty_symbol three_clients))) eq_refl)).
  - exact (proj2 (proj2 (proj2 (upstream_message_applied_iff_truthy_symbol
                                  (Garbled "PING") three_clients))) "PING" eq_refl).
Defined.

(** ** Commands *)

Lemma transmitted_app (l r : list ZmqCall) :
  transmitted (l ++ r) = transmitted l ++ transmitted r.
Proof.
  induction l as [|c l IH]; [reflexivity|].
  destruct c as [ok|ok|message [|]]; cbn [app transmitted]; rewrite IH; reflexivity.
Qed.

Lemma sendToMT4_eq (command params : JsVal) (s : Server) :
  sendToMT4 command params s =
  let message := command_message command params in
  match dealer s with
  | None => (Normal tt, s)
  | Some Up =>
      (Normal tt,
       with_console (console s ++ [Info "Sent to MT4:" (Text message)])
         (with_zmq (zmq s ++ [ZSend message true]) s))
  | Some Down =>
      (Normal tt,
       with_console (console s ++ [Error "Error sending to MT4:" (Caught ZmqError)])
         (with_zmq (zmq s ++ [ZSend message false]) s))
  end.
Proof.
  unfold sendToMT4, bind at 1, gets.
  destruct (dealer s) as [[|]|] eqn:Hd; try reflexivity;
    unfold try_catch, bind, dealer_send; rewrite Hd; reflexivity.
Qed.

Lemma sendToMT4_returns (command params : JsVal) (s : Server) :
  fst (sendToMT4 command params s) = Normal tt.
Proof. rewrite sendToMT4_eq. now destruct (dealer s) as [[|]|]. Qed.

Lemma api_command_eq (req_body : JValue) (s : Server) :
  api_command req_body s =
  match prop req_body "command", prop req_body "params" with
  | Normal command, Normal params =>
      if truthy command
      then (Normal command_sent, snd (sendToMT4 command params s))
      else (Normal command_required, s)
  | _, _ => (Thrown TypeError, s)
  end.
Proof.
  destruct req_body as [| | | | |fields]; try reflexivity.
  unfold api_command, bind at 1, lift, prop. unfold bind at 1.
  destruct (truthy (assoc "command" fields)) eqn:Ht; cbn [negb]; [|reflexivity].
  unfold bind.
  pose proof (sendToMT4_returns (assoc "command" fields) (assoc "params" fields) s) as Hr.
  destruct (sendToMT4 _ _ s) as [r s1]. cbn [fst] in Hr. subst r. reflexivity.
Qed.

(** C2 as stated fails: with no dealer socket at all, POST /api/command
    answers 200 [{success: true, message: 'Command sent'}], which is no error,
    while the command went nowhere and the state shows no trace of it. *)
Lemma command_swallowed_when_dealer_absent :
  disconnected (startup offline_boot) = true /\
  api_command buy_order (startup offline_boot)
    = (Normal command_sent, startup offline_boot) /\
  is_error (fst (api_command buy_order (startup offline_boot))) = false.
Proof. repeat split; reflexivity. Qed.

(** C2, amended.  A command submitted while the upstream is out of reach (no
    dealer socket, or [dealer.send] raising) is dropped without blocking or
    raising: [sendToMT4] returns normally, no frame is added to those the
    upstream accepted and no client socket is written; with no dealer socket
    the state is untouched, with a failing one the failure only reaches the
    server's console.  The caller is not told: POST /api/command with a truthy
    command still answers 200 [{success: true, message: 'Command sent'}]. *)
Theorem command_dropped_while_disconnected
  (s : Server) (req_body : JValue) (command params : JsVal) :
  disconnected s = true ->
  prop req_body "command" = Normal command ->
  prop req_body "params" = Normal params ->
  truthy command = true ->
  let s' := snd (sendToMT4 command params s) in
  fst (sendToMT4 command params s) = Normal tt /\
  transmitted (zmq s') = transmitted (zmq s) /\
  wire s' = wire s /\
  (dealer s = None -> s' = s) /\
  (dealer s = Some Down ->
   console s' = console s ++ [Error "Error sending to MT4:" (Caught ZmqError)]) /\
  api_command req_body s = (Normal command_sent, s') /\
  is_error (fst (api_command req_body s)) = false.
Proof.
  intros Hdis Hc Hp Ht s'. rewrite api_command_eq, Hc, Hp, Ht. fold s'.
  unfold s'. rewrite sendToMT4_eq. unfold disconnected in Hdis.
  destruct (dealer s) as [[|]|]; try discriminate; cbn zeta; cbn [fst snd];
    repeat split; try discriminate.
  cbn [zmq with_console with_zmq]. rewrite transmitted_app. cbn [transmitted].
  apply app_nil_r.
Qed.

Lemma command_dropped_while_disconnected_witness :
  fst (sendToMT4 (Some (JString "BUY")) (Some (JObject [("lots", JNum 0.1)])) link_lost)
    = Normal tt /\
  transmitted (zmq (snd (sendToMT4 (Some (JString "BUY"))
                                   (Some (JObject [("lots", JNum 0.1)])) link_lost)))
    = transmitted (zmq link_lost) /\
  fst (api_command buy_order link_lost) = Normal command_sent.
Proof.
  pose proof (command_dropped_while_disconnected link_lost buy_order
                (Some (JString "BUY")) (Some (JObject [("lots", JNum 0.1)]))
                eq_refl eq_refl eq_refl eq_refl) as H.
  cbv zeta in H. destruct H as (Hr & Ht & _ & _ & _ & Ha & _).
  split; [exact Hr|]. split; [exact Ht|]. now rewrite Ha.
Defined.

(** C9.  POST /api/command whose body carries a truthy (for a string:
    non-empty) [command] answers 200 [{success: true, message: 'Command
    sent'}] in every state of the dealer: when the dealer socket is absent
    [sendToMT4] returns without touching anything, and when [dealer.send]
    raises the error is caught, written to the console and not reported, no
    frame having been accepted by the upstream. *)
Theorem command_reply_ignores_upstream
  (s : Server) (req_body : JValue) (command params : JsVal) :
  prop req_body "command" = Normal command ->
  prop req_body "params" = Normal params ->
  truthy command = true ->
  fst (api_command req_body s) = Normal command_sent /\
  (dealer s = None ->
   sendToMT4 command params s = (Normal tt, s) /\ snd (api_command req_body s) = s) /\
  (dealer s = Some Down ->
   fst (sendToMT4 command params s) = Normal tt /\
   transmitted (zmq (snd (api_command req_body s))) = transmitted (zmq s) /\
   console (snd (api_command req_body s))
     = console s ++ [Error "Error sending to MT4:" (Caught ZmqError)]) /\
  (dealer s = Some Up ->
   transmitted (zmq (snd (api_command req_body s)))
     = transmitted (zmq s) ++ [command_message command params]).
Proof.
  intros Hc Hp Ht. rewrite api_command_eq, Hc, Hp, Ht. cbn [fst snd].
  rewrite sendToMT4_eq. split; [reflexivity|].
  split; [|split]; intros Hd; rewrite Hd; cbn zeta; cbn [fst snd zmq console
    with_console with_zmq]; rewrite ?transmitted_app; cbn [transmitted];
    rewrite ?app_nil_r; auto.
Qed.

Lemma command_reply_ignores_upstream_witness :
  fst (api_command buy_order (startup offline_boot)) = Normal command_sent /\
  fst (api_command buy_order link_lost) = Normal command_sent /\
  fst (api_command buy_order (startup demo_boot)) = Normal command_sent /\
  snd (api_command buy_order (startup offline_boot)) = startup offline_boot.
Proof.
  split; [|split; [|split]].
  - exact (proj1 (command_reply_ignores_upstream (startup offline_boot) buy_order
                    _ _ eq_refl eq_refl eq_refl)).
  - exact (proj1 (command_reply_ignores_upstream link_lost buy_order
                    _ _ eq_refl eq_refl eq_refl)).
  - exact (proj1 (command_reply_ignores_upstream (startup demo_boot) buy_order
                    _ _ eq_refl eq_refl eq_refl)).
  - exact (proj2 (proj1 (proj2 (command_reply_ignores_upstream (startup offline_boot)
                    buy_order _ _ eq_refl eq_refl eq_refl)) eq_refl)).
Defined.

(** C6 as stated fails: a body whose [command] field is present but empty is
    answered 400 [{error: 'Command is required'}], not a
    [{success, message}] document. *)
Lemma present_but_empty_command_is_rejected :
  prop blank_order "command" = Normal (Some (JString "")) /\
  fst (api_command blank_order (startup demo_boot)) = Normal command_required /\
  success_shape command_required = false.
Proof. repeat split; reflexivity. Qed.

(** C6, amended.  For every body [express.json()] can hand over (anything but
    [null]): when the [command] property is missing or falsy (empty string, 0,
    false, null) the reply is 400 [{error: 'Command is required'}] and the
    state is untouched; otherwise the reply is 200 [{success: true, message:
    'Command sent'}], of the shape [{success: bool, message: string}]. *)
Theorem command_reply_shape (s : Server) (req_body : JValue) :
  req_body <> JNull ->
  exists command,
    prop req_body "command" = Normal command /\
    (truthy command = false ->
     api_command req_body s = (Normal command_required, s) /\
     is_error (fst (api_command req_body s)) = true) /\
    (command = undefined -> fst (api_command req_body s) = Normal command_required) /\
    (truthy command = true ->
     fst (api_command req_body s) = Normal command_sent /\
     success_shape command_sent = true).
Proof.
  intros Hnn. rewrite api_command_eq.
  destruct req_body as [| | | | |fields]; try congruence;
    (eexists; split; [reflexivity|]); cbn [prop truthy undefined].
  1-4: split; [intros _; split; reflexivity|];
       split; [reflexivity|discriminate].
  split; [|split].
  - intros ->. split; reflexivity.
  - intros ->. reflexivity.
  - intros ->. split; reflexivity.
Qed.

Lemma command_reply_shape_witness :
  (exists command,
     prop buy_order "command" = Normal command /\
     fst (api_command buy_order (startup demo_boot)) = Normal command_sent) /\
  (exists command,
     prop (JObject []) "command" = Normal command /\
     fst (api_command (JObject []) (startup demo_boot)) = Normal command_required).
Proof.
  split.
  - destruct (command_reply_shape (startup demo_boot) buy_order) as (c & Hc & _ & _ & H).
    + discriminate.
    + exists c. split; [exact Hc|]. apply H.
      injection Hc as <-. reflexivity.
  - destruct (command_reply_shape (startup demo_boot) (JObject [])) as (c & Hc & _ & H & _).
    + discriminate.
    + exists c. split; [exact Hc|]. apply H.
      injection Hc as <-. reflexivity.
Defined.

(** ** Client sessions *)

Lemma ws_on_message_eq (ws : WebSocket) (message : Frame) (s : Server) :
  ws_on_message ws message s =
  match message with
  | Garbled _ => (Normal tt, note (failed SyntaxError) s)
  | Document JNull => (Normal tt, note (failed TypeError) (note (heard JNull) s))
  | Document (JObject fields) =>
      let s1 := note (heard (JObject fields)) s in
      if is_string (assoc "type" fields) "command" then
        (Normal tt, snd (sendToMT4 (assoc "command" fields) (assoc "params" fields) s1))
      else if is_string (assoc "type" fields) "get_history" then
        if is_open (readyState s ws)
        then (Normal tt, with_wire (wire s ++ [(ws, history_data_message)]) s1)
        else (Normal tt, note (failed NotOpened) s1)
      else (Normal tt, s1)
  | Document msg => (Normal tt, note (heard msg) s)
  end.
Proof.
  destruct message as [raw|msg]; [reflexivity|].
  destruct msg as [| | | | |fields]; try reflexivity.
  unfold ws_on_message, try_catch, bind at 1, lift, JSON_parse.
  unfold bind at 1, console_log, modify. unfold bind at 1, lift, prop.
  fold (note (heard (JObject fields)) s). cbv zeta.
  destruct (is_string (assoc "type" fields) "command").
  - unfold bind.
    pose proof (sendToMT4_returns (assoc "command" fields) (assoc "params" fields)
                  (note (heard (JObject fields)) s)) as Hr.
    destruct (sendToMT4 _ _ _) as [r s2]. cbn [fst] in Hr. now subst r.
  - destruct (is_string (assoc "type" fields) "get_history"); [|reflexivity].
    unfold sendTradeHistory, ws_send. cbn [readyState note with_console].
    now destruct (is_open (readyState s ws)).
Qed.

Lemma ws_on_message_returns (ws : WebSocket) (message : Frame) (s : Server) :
  fst (ws_on_message ws message s) = Normal tt.
Proof.
  rewrite ws_on_message_eq.
  destruct message as [raw|[| | | | |fields]]; try reflexivity. cbv zeta.
  repeat match goal with |- context [if ?b then _ else _] => destruct b end;
    reflexivity.
Qed.

Lemma wss_on_connection_eq (ws : WebSocket) (s : Server) :
  wss_on_connection ws s =
  let s1 := with_clients (Set_add ws (clients s)) (note (Info "Client connected" NoArg) s) in
  if is_open (readyState s ws)
  then (Normal tt, with_wire (wire s ++ [(ws, market_data_message (marketData s))]) s1)
  else (Thrown NotOpened, s1).
Proof.
  unfold wss_on_connection, bind, console_log, modify, gets, ws_send.
  cbn [readyState with_clients with_console]. cbv zeta.
  now destruct (is_open (readyState s ws)).
Qed.

Lemma Set_add_In (ws : WebSocket) (cs : list WebSocket) : In ws (Set_add ws cs).
Proof.
  unfold Set_add. destruct (existsb (Nat.eqb ws) cs) eqn:He.
  - apply existsb_exists in He as (c & Hin & Heq).
    apply Nat.eqb_eq in Heq. now subst c.
  - apply in_or_app. right. now left.
Qed.

(** C7.  When a session sends a [{type: "get_history"}] record, the handler
    returns normally and writes to no socket but the requester's, and nothing
    but the [{type: "history_data", data: [..]}] document with the trade
    records: no [market_data] frame goes out, and neither the snapshot nor
    the upstream sees anything.  The sender's socket being open, as it is
    when a message arrives on it, exactly one such frame is handed to
    [ws.send]. *)
Theorem history_goes_to_requester_only
  (s : Server) (ws : WebSocket) (fields : list (string * JValue)) :
  is_string (assoc "type" fields) "get_history" = true ->
  let handler := ws_on_message ws (Document (JObject fields)) in
  fst (handler s) = Normal tt /\
  (readyState s ws = OPEN -> sent_by handler s = [(ws, history_data_message)]) /\
  (forall c m, In (c, m) (sent_by handler s) ->
               c = ws /\ m = history_data_message /\
               m <> market_data_message (marketData s)) /\
  (exists trades,
     history_data_message
       = Document (JObject [("type", JString "history_data"); ("data", JArray trades)]) /\
     forallb is_trade_record trades = true) /\
  marketData (snd (handler s)) = marketData s /\
  zmq (snd (handler s)) = zmq s.
Proof.
  intros Htype handler.
  assert (Hcmd : is_string (assoc "type" fields) "command" = false).
  { destruct (assoc "type" fields) as [[| | |t| |]|]; try discriminate.
    cbn [is_string] in *. apply String.eqb_eq in Htype. now subst t. }
  assert (Heq : handler s =
                if is_open (readyState s ws)
                then (Normal tt, with_wire (wire s ++ [(ws, history_data_message)])
                                   (note (heard (JObject fields)) s))
                else (Normal tt, note (failed NotOpened) (note (heard (JObject fields)) s))).
  { unfold handler. rewrite ws_on_message_eq. cbv zeta. now rewrite Hcmd, Htype. }
  unfold sent_by. rewrite Heq.
  destruct (readyState s ws) eqn:Hws; cbn [is_open fst snd wire with_wire note with_console];
    rewrite ?skipn_length_app, ?skipn_all;
    (split; [reflexivity|]); (split; [try discriminate; reflexivity|]);
    (split; [|split; [eexists; split; reflexivity|split; reflexivity]]).
  all: intros c m Hin; try contradiction.
  destruct Hin as [Hin|[]]. injection Hin as <- <-.
  split; [reflexivity|]. split; [reflexivity|discriminate].
Qed.

Lemma history_goes_to_requester_only_witness :
  readyState three_clients 3 = OPEN /\
  sent_by (ws_on_message 3 get_history) three_clients = [(3%nat, history_data_message)].
Proof.
  split; [reflexivity|].
  exact (proj1 (proj2 (history_goes_to_requester_only three_clients 3
                         [("type", JString "get_history")] eq_refl)) eq_refl).
Defined.

(** ** The simulator *)

Lemma simulate_tick_eq (e : Draws) (s : Server) :
  simulate_tick e s =
  match prop (marketData s) "bid" with
  | Thrown error => (Thrown error, s)
  | Normal bid =>
      if is_zero bid
      then (Normal tt,
            with_wire (wire s ++ fan_out s (market_data_message (simulated_marketData e)))
              (with_marketData (simulated_marketData e) s))
      else (Normal tt, s)
  end.
Proof.
  unfold simulate_tick, bind at 1, gets. unfold bind at 1, lift.
  destruct (prop (marketData s) "bid") as [bid|error]; [|reflexivity].
  destruct (is_zero bid); [|reflexivity].
  unfold bind, modify. now rewrite broadcastMarketData_eq.
Qed.

(** ** What a step leaves alone *)

Lemma connect_attempts_send (calls : list ZmqCall) (message : Frame) (ok : bool) :
  connect_attempts (calls ++ [ZSend message ok]) = connect_attempts calls.
Proof.
  induction calls as [|c calls IH]; [reflexivity|].
  destruct c; cbn [app connect_attempts]; now rewrite IH.
Qed.

Ltac split_branches :=
  repeat match goal with
         | |- context [match dealer ?s with _ => _ end] =>
             destruct (dealer s) as [[|]|]
         | |- context [if ?b then _ else _] => destruct b
         end.

Lemma sendToMT4_marketData (command params : JsVal) (s : Server) :
  marketData (snd (sendToMT4 command params s)) = marketData s.
Proof. rewrite sendToMT4_eq. cbv zeta. split_branches; reflexivity. Qed.

Lemma sendToMT4_connects (command params : JsVal) (s : Server) :
  connect_attempts (zmq (snd (sendToMT4 command params s))) = connect_attempts (zmq s).
Proof.
  rewrite sendToMT4_eq. cbv zeta.
  split_branches; cbn [snd zmq with_console with_zmq];
    rewrite ?connect_attempts_send; reflexivity.
Qed.

Lemma sendToMT4_dealer (command params : JsVal) (s : Server) :
  dealer (snd (sendToMT4 command params s)) = dealer s.
Proof. rewrite sendToMT4_eq. cbv zeta. destruct (dealer s) as [[|]|] eqn:E; now cbn. Qed.

Lemma ws_on_message_marketData (ws : WebSocket) (message : Frame) (s : Server) :
  marketData (snd (ws_on_message ws message s)) = marketData s.
Proof.
  rewrite ws_on_message_eq.
  destruct message as [raw|[| | | | |fields]]; try reflexivity. cbv zeta.
  destruct (is_string (assoc "type" fields) "command").
  - cbn [snd]. now rewrite sendToMT4_marketData.
  - split_branches; reflexivity.
Qed.

Lemma ws_on_message_connects (ws : WebSocket) (message : Frame) (s : Server) :
  connect_attempts (zmq (snd (ws_on_message ws message s))) = connect_attempts (zmq s).
Proof.
  rewrite ws_on_message_eq.
  destruct message as [raw|[| | | | |fields]]; try reflexivity. cbv zeta.
  destruct (is_string (assoc "type" fields) "command").
  - cbn [snd]. now rewrite sendToMT4_connects.
  - split_branches; reflexivity.
Qed.

Lemma api_command_marketData (req_body : JValue) (s : Server) :
  marketData (snd (api_command req_body s)) = marketData s.
Proof.
  rewrite api_command_eq.
  destruct (prop req_body "command") as [command|]; [|reflexivity].
  destruct (prop req_body "params") as [params|]; [|reflexivity].
  destruct (truthy command); [|reflexivity].
  cbn [snd]. apply sendToMT4_marketData.
Qed.

Lemma api_command_connects (req_body : JValue) (s : Server) :
  connect_attempts (zmq (snd (api_command req_body s))) = connect_attempts (zmq s).
Proof.
  rewrite api_command_eq.
  destruct (prop req_body "command") as [command|]; [|reflexivity].
  destruct (prop req_body "params") as [params|]; [|reflexivity].
  destruct (truthy command); [|reflexivity].
  cbn [snd]. apply sendToMT4_connects.
Qed.

Lemma dealer_on_message_zmq (message : Frame) (s : Server) :
  zmq (snd (dealer_on_message message s)) = zmq s.
Proof.
  destruct (snapshot_update message) eqn:Hup.
  - destruct message as [raw|data]; [discriminate|].
    now rewrite dealer_on_message_update.
  - now rewrite dealer_on_message_other.
Qed.

Lemma dealer_on_message_marketData (message : Frame) (s : Server) :
  marketData (snd (dealer_on_message message s)) =
  match message with
  | Document data => if snapshot_update message then data else marketData s
  | Garbled _ => marketData s
  end.
Proof.
  destruct (snapshot_update message) eqn:Hup.
  - destruct message as [raw|data]; [discriminate|].
    now rewrite dealer_on_message_update.
  - rewrite dealer_on_message_other by exact Hup. now destruct message.
Qed.

Lemma callback_inv (m : Js unit) (s s' : Server) :
  callback m s = Some s' -> m s = (Normal tt, s').
Proof.
  unfold callback. destruct (m s) as [[[]|error] s1]; congruence.
Qed.

Lemma callback_returns (m : Js unit) (s : Server) :
  fst (m s) = Normal tt -> callback m s = Some (snd (m s)).
Proof.
  unfold callback. destruct (m s) as [[[]|error] s1]; cbn; congruence.
Qed.

(** No step calls [dealer.connect]. *)
Lemma step_connects (ev : Event) (s s' : Server) :
  step ev s = Some s' ->
  connect_attempts (zmq s') = connect_attempts (zmq s).
Proof.
  destruct ev as [ws|ws message|ws|ws|message|l|e| |req_body]; cbn [step].
  - intros H%callback_inv. rewrite wss_on_connection_eq in H. cbv zeta in H.
    destruct (is_open _); [|discriminate]. now injection H as <-.
  - intros H%callback_inv.
    rewrite <- (ws_on_message_connects ws message s). now rewrite H.
  - now intros [= <-].
  - intros H%callback_inv. now injection H as <-.
  - destruct (dealer s); [|now intros [= <-]].
    intros H%callback_inv.
    rewrite <- (dealer_on_message_zmq message s). now rewrite H.
  - destruct (dealer s); now intros [= <-].
  - intros H%callback_inv. rewrite simulate_tick_eq in H.
    destruct (prop _ _) as [bid|]; [|discriminate].
    destruct (is_zero bid); now injection H as <-.
  - now intros [= <-].
  - unfold route. intros [= <-]. apply api_command_connects.
Qed.

Lemma step_quiet (ev : Event) (s : Server) :
  quiet ev = true ->
  exists s', step ev s = Some s' /\ marketData s' = marketData s.
Proof.
  destruct ev as [ws|ws message|ws|ws|message|l|e| |req_body]; cbn [step quiet];
    intros Hq; try discriminate.
  - rewrite (callback_returns (wss_on_connection ws)).
    + eexists. split; [reflexivity|]. rewrite wss_on_connection_eq. cbv zeta.
      cbn [readyState set_readyState with_readyState]. now rewrite Nat.eqb_refl.
    + rewrite wss_on_connection_eq. cbv zeta.
      cbn [readyState set_readyState with_readyState]. now rewrite Nat.eqb_refl.
  - rewrite (callback_returns _ _ (ws_on_message_returns ws message s)).
    eexists. split; [reflexivity|]. apply ws_on_message_marketData.
  - eexists. split; reflexivity.
  - eexists. split; reflexivity.
  - destruct (dealer s); [|eexists; split; reflexivity].
    rewrite (callback_returns _ _ (dealer_on_message_returns message s)).
    eexists. split; [reflexivity|]. apply negb_true_iff in Hq.
    now rewrite dealer_on_message_other.
  - destruct (dealer s); eexists; split; reflexivity.
  - eexists. split; reflexivity.
  - unfold route. eexists. split; [reflexivity|]. apply api_command_marketData.
Qed.

Lemma run_quiet (evs : list Event) (s : Server) :
  forallb quiet evs = true ->
  exists s', run evs s = Some s' /\ marketData s' = marketData s.
Proof.
  revert s. induction evs as [|ev evs IH]; intros s Hq.
  - exists s. split; reflexivity.
  - cbn [forallb] in Hq. apply andb_true_iff in Hq as [Hev Hevs].
    destruct (step_quiet ev s Hev) as (s1 & Hstep & Hmd).
    destruct (IH s1 Hevs) as (s' & Hrun & Hmd').
    exists s'. cbn [run]. rewrite Hstep. split; [exact Hrun|congruence].
Qed.

Lemma ws_on_message_dealer (ws : WebSocket) (message : Frame) (s : Server) :
  dealer (snd (ws_on_message ws message s)) = dealer s.
Proof.
  rewrite ws_on_message_eq.
  destruct message as [raw|[| | | | |fields]]; try reflexivity. cbv zeta.
  destruct (is_string (assoc "type" fields) "command").
  - cbn [snd]. now rewrite sendToMT4_dealer.
  - split_branches; reflexivity.
Qed.

Lemma api_command_dealer (req_body : JValue) (s : Server) :
  dealer (snd (api_command req_body s)) = dealer s.
Proof.
  rewrite api_command_eq.
  destruct (prop req_body "command") as [command|]; [|reflexivity].
  destruct (prop req_body "params") as [params|]; [|reflexivity].
  destruct (truthy command); [|reflexivity].
  cbn [snd]. apply sendToMT4_dealer.
Qed.

(** A process that started without a dealer socket never gets one. *)
Lemma step_dealer_absent (ev : Event) (s s' : Server) :
  dealer s = None -> step ev s = Some s' -> dealer s' = None.
Proof.
  intros Hd.
  destruct ev as [ws|ws message|ws|ws|message|l|e| |req_body]; cbn [step].
  - intros H%callback_inv. rewrite wss_on_connection_eq in H. cbv zeta in H.
    destruct (is_open _); [|discriminate]. now injection H as <-.
  - intros H%callback_inv.
    rewrite <- Hd, <- (ws_on_message_dealer ws message s). now rewrite H.
  - now intros [= <-].
  - intros H%callback_inv. now injection H as <-.
  - rewrite Hd. now intros [= <-].
  - rewrite Hd. now intros [= <-].
  - intros H%callback_inv. rewrite simulate_tick_eq in H.
    destruct (prop _ _) as [bid|]; [|discriminate].
    destruct (is_zero bid); now injection H as <-.
  - now intros [= <-].
  - unfold route. intros [= <-]. now rewrite api_command_dealer.
Qed.

(** [marketData] is a record from start to end, so the timer callback, the
    one callback with an unguarded property read, never raises. *)
Lemma step_defined (ev : Event) (s : Server) :
  is_record (marketData s) = true ->
  exists s', step ev s = Some s' /\ is_record (marketData s') = true.
Proof.
  intros Hrec. destruct (quiet ev) eqn:Hq.
  - destruct (step_quiet ev s Hq) as (s' & Hstep & Hmd).
    exists s'. split; [exact Hstep|congruence].
  - destruct ev as [ws|ws message|ws|ws|message|l|e| |req_body]; try discriminate;
      cbn [step].
    + destruct (dealer s); [|now exists s].
      rewrite (callback_returns _ _ (dealer_on_message_returns message s)).
      eexists. split; [reflexivity|]. rewrite dealer_on_message_marketData.
      cbn [quiet] in Hq. apply negb_false_iff in Hq. rewrite Hq.
      destruct message as [raw|[| | | | |fields]]; try discriminate. reflexivity.
    + unfold callback. rewrite simulate_tick_eq.
      destruct (marketData s) as [| | | | |fields] eqn:Hmd; try discriminate.
      cbn [prop]. destruct (is_zero (assoc "bid" fields)).
      * eexists. split; reflexivity.
      * eexists. split; [reflexivity|]. now rewrite Hmd.
Qed.

Lemma run_defined (evs : list Event) (s : Server) :
  is_record (marketData s) = true ->
  exists s', run evs s = Some s' /\ is_record (marketData s') = true.
Proof.
  revert s. induction evs as [|ev evs IH]; intros s Hrec.
  - now exists s.
  - destruct (step_defined ev s Hrec) as (s1 & Hstep & Hrec1).
    cbn [run]. rewrite Hstep. now apply IH.
Qed.

Lemma run_connects (evs : list Event) (s s' : Server) :
  run evs s = Some s' ->
  connect_attempts (zmq s') = connect_attempts (zmq s).
Proof.
  revert s. induction evs as [|ev evs IH]; intros s; cbn [run].
  - now intros [= <-].
  - destruct (step ev s) as [s1|] eqn:Hstep; [|discriminate].
    intros Hrun. rewrite (IH _ Hrun). now apply step_connects with ev.
Qed.

Lemma run_dealer_absent (evs : list Event) (s s' : Server) :
  dealer s = None -> run evs s = Some s' -> dealer s' = None.
Proof.
  revert s. induction evs as [|ev evs IH]; intros s Hd; cbn [run].
  - now intros [= <-].
  - destruct (step ev s) as [s1|] eqn:Hstep; [|discriminate].
    apply IH. now apply step_dealer_absent with ev s.
Qed.

(** ** Start-up *)

Lemma startup_eq (b : Boot) :
  startup b =
  let listening := Info ("Server running on port " ++ PORT b)%string NoArg in
  match socket_ok b, connect_ok b with
  | false, _ =>
      {| dealer := None; marketData := initial_marketData (boot_time b);
         clients := []; readyState := fun _ => CONNECTING; wire := [];
         zmq := [ZSocket false];
         console := [Error "Failed to connect to MetaTrader:" (Caught ZmqError);
                     listening] |}
  | true, false =>
      {| dealer := Some Down; marketData := initial_marketData (boot_time b);
         clients := []; readyState := fun _ => CONNECTING; wire := [];
         zmq := [ZSocket true; ZConnect false];
         console := [Error "Failed to connect to MetaTrader:" (Caught ZmqError);
                     listening] |}
  | true, true =>
      {| dealer := Some Up; marketData := initial_marketData (boot_time b);
         clients := []; readyState := fun _ => CONNECTING; wire := [];
         zmq := [ZSocket true; ZConnect true];
         console := [Info "Connected to MT4 at 127.0.0.1:5555" NoArg; listening] |}
  end.
Proof.
  unfold startup, setup_dealer, try_catch, bind, zmq_socket, dealer_connect.
  destruct (socket_ok b), (connect_ok b); reflexivity.
Qed.

Lemma startup_marketData (b : Boot) :
  marketData (startup b) = initial_marketData (boot_time b).
Proof. rewrite startup_eq. cbv zeta. now destruct (socket_ok b), (connect_ok b). Qed.

(** ** New sessions *)

Lemma step_Connection (ws : WebSocket) (s : Server) :
  exists s', step (Connection ws) s = Some s' /\
             In ws (clients s') /\ readyState s' ws = OPEN /\
             wire s' = wire s ++ [(ws, market_data_message (marketData s))] /\
             marketData s' = marketData s.
Proof.
  cbn [step]. unfold callback. rewrite wss_on_connection_eq. cbv zeta.
  cbn [readyState set_readyState with_readyState]. rewrite Nat.eqb_refl. cbn [is_open].
  eexists. split; [reflexivity|].
  cbn [clients readyState wire marketData with_wire with_clients note with_console
       set_readyState with_readyState].
  rewrite Nat.eqb_refl. repeat split. apply Set_add_In.
Qed.

(** C5.  When a client connects, the connection handler registers its socket
    in [clients] and at once hands [ws.send] one frame for it: [{type:
    "market_data", data: marketData}] with the snapshot stored at that moment.
    As long as no snapshot has been applied since start-up (no upstream
    snapshot, no timer tick), that snapshot is the initial one: symbol
    'EURUSD', bid 0, ask 0, the start-up time, balance 10000, equity 10000,
    margin 0 and no zones. *)
Theorem new_client_gets_current_snapshot (ws : WebSocket) :
  (forall s, exists s',
      step (Connection ws) s = Some s' /\ In ws (clients s') /\
      wire s' = wire s ++ [(ws, Document (JObject [("type", JString "market_data");
                                                   ("data", marketData s)]))]) /\
  (forall b evs, forallb quiet evs = true ->
     exists s s',
       run evs (startup b) = Some s /\
       step (Connection ws) s = Some s' /\ In ws (clients s') /\
       wire s' = wire s ++
         [(ws, Document (JObject
                 [("type", JString "market_data");
                  ("data", JObject [("symbol", JString "EURUSD");
                                    ("bid", JNum 0);
                                    ("ask", JNum 0);
                                    ("time", JString (boot_time b));
                                    ("balance", JNum 10000);
                                    ("equity", JNum 10000);
                                    ("margin", JNum 0);
                                    ("zones", JArray [])])]))]).
Proof.
  split.
  - intros s. destruct (step_Connection ws s) as (s' & Hstep & Hin & _ & Hwire & _).
    exists s'. auto.
  - intros b evs Hq. destruct (run_quiet evs (startup b) Hq) as (s & Hrun & Hmd).
    destruct (step_Connection ws s) as (s' & Hstep & Hin & _ & Hwire & _).
    exists s, s'. rewrite Hwire, Hmd, startup_marketData. auto.
Qed.

Lemma new_client_gets_current_snapshot_witness :
  exists s s',
    run [Connection 1; Upstream (Garbled "PING"); PostCommand buy_order;
         Message 1 get_history] (startup demo_boot) = Some s /\
    step (Connection 7) s = Some s' /\ In 7%nat (clients s') /\
    wire s' = wire s ++
      [(7%nat, market_data_message (initial_marketData (boot_time demo_boot)))].
Proof.
  exact (proj2 (new_client_gets_current_snapshot 7) demo_boot
           [Connection 1; Upstream (Garbled "PING"); PostCommand buy_order;
            Message 1 get_history] eq_refl).
Defined.

(** ** Reconnection *)

(** C8 as stated fails: after a failed connect the process runs on for three
    timer periods (six seconds) and fails to forward a command, and in all
    that time [dealer.connect] is not called again. *)
Lemma connect_failure_is_never_retried :
  option_map zmq (run [Tick demo_draws; Tick demo_draws; Tick demo_draws;
                       PostCommand buy_order] (startup refused_boot))
  = Some [ZSocket true; ZConnect false;
          ZSend (command_message (Some (JString "BUY"))
                                 (Some (JObject [("lots", JNum 0.1)]))) false].
Proof. reflexivity. Qed.

(** The console only grows: a line once written stays. *)
Lemma sendToMT4_console (command params : JsVal) (s : Server) (line : LogLine) :
  In line (console s) -> In line (console (snd (sendToMT4 command params s))).
Proof.
  intros Hin. rewrite sendToMT4_eq. cbv zeta.
  destruct (dealer s) as [[|]|]; cbn [snd console with_console with_zmq];
    auto using in_or_app.
Qed.

Lemma step_console (ev : Event) (s s' : Server) (line : LogLine) :
  step ev s = Some s' -> In line (console s) -> In line (console s').
Proof.
  intros Hstep Hin.
  destruct ev as [ws|ws message|ws|ws|message|l|e| |req_body]; cbn [step] in Hstep.
  - apply callback_inv in Hstep. rewrite wss_on_connection_eq in Hstep.
    cbv zeta in Hstep. destruct (is_open _); [|discriminate].
    injection Hstep as <-. cbn. auto using in_or_app.
  - apply callback_inv in Hstep. rewrite ws_on_message_eq in Hstep.
    destruct message as [raw|[| | | | |fields]];
      try (injection Hstep as <-; cbn; rewrite <- ?app_assoc; auto using in_or_app).
    cbv zeta in Hstep. destruct (is_string (assoc "type" fields) "command").
    + injection Hstep as <-. apply sendToMT4_console. cbn. auto using in_or_app.
    + destruct (is_string (assoc "type" fields) "get_history");
        [destruct (is_open _)|]; injection Hstep as <-; cbn;
        rewrite <- ?app_assoc; auto using in_or_app.
  - injection Hstep as <-. exact Hin.
  - apply callback_inv in Hstep. injection Hstep as <-. cbn. auto using in_or_app.
  - destruct (dealer s); [|now injection Hstep as <-].
    apply callback_inv in Hstep. destruct (snapshot_update message) eqn:Hup.
    + destruct message as [raw|data]; [discriminate|].
      rewrite dealer_on_message_update in Hstep by exact Hup.
      injection Hstep as <-. cbn. auto using in_or_app.
    + rewrite dealer_on_message_other in Hstep by exact Hup.
      injection Hstep as <-. cbn. auto using in_or_app.
  - destruct (dealer s); injection Hstep as <-; exact Hin.
  - apply callback_inv in Hstep. rewrite simulate_tick_eq in Hstep.
    destruct (prop _ _) as [bid|]; [|discriminate].
    destruct (is_zero bid); injection Hstep as <-; exact Hin.
  - injection Hstep as <-. exact Hin.
  - unfold route in Hstep. injection Hstep as <-. rewrite api_command_eq.
    destruct (prop req_body "command") as [command|]; [|exact Hin].
    destruct (prop req_body "params") as [params|]; [|exact Hin].
    destruct (truthy command); [|exact Hin].
    cbn [snd]. now apply sendToMT4_console.
Qed.

Lemma run_console (evs : list Event) (s s' : Server) (line : LogLine) :
  run evs s = Some s' -> In line (console s) -> In line (console s').
Proof.
  revert s. induction evs as [|ev evs IH]; intros s; cbn [run].
  - now intros [= <-].
  - destruct (step ev s) as [s1|] eqn:Hstep; [|discriminate].
    intros Hrun Hin. apply (IH s1 Hrun). now apply step_console with ev s.
Qed.

Lemma startup_logs_failure (b : Boot) :
  socket_ok b && connect_ok b = false -> In connect_failed (console (startup b)).
Proof.
  rewrite startup_eq. cbv zeta. unfold connect_failed.
  destruct (socket_ok b), (connect_ok b); try discriminate; intros _; now left.
Qed.

(** C8, amended.  The process tries the upstream once, at start-up:
    [dealer.connect] is called exactly once if [zmq.socket] returned a socket
    and never otherwise, whatever events follow.  A failure, of [zmq.socket]
    or of [dealer.connect], is logged at start-up by [console.error('Failed
    to connect to MetaTrader:', error)], the line stays on the console, and
    the failure is never retried, with or without backoff: after a failed
    [dealer.connect] the zeromq binding has seen that one call and no other.
    If no socket could be created the process runs to the end without a
    dealer. *)
Theorem upstream_is_tried_once (b : Boot) (evs : list Event) :
  exists s,
    run evs (startup b) = Some s /\
    connect_attempts (zmq s) = (if socket_ok b then 1 else 0)%nat /\
    (socket_ok b && connect_ok b = false ->
     In connect_failed (console (startup b)) /\ In connect_failed (console s)) /\
    (socket_ok b = true -> connect_ok b = false ->
     zmq (startup b) = [ZSocket true; ZConnect false] /\
     connect_attempts (zmq s) = 1%nat) /\
    (socket_ok b = false -> dealer s = None /\ disconnected s = true).
Proof.
  destruct (run_defined evs (startup b)) as (s & Hrun & _).
  { now rewrite startup_marketData. }
  assert (Hattempts : connect_attempts (zmq s) = (if socket_ok b then 1 else 0)%nat).
  { rewrite (run_connects _ _ _ Hrun), startup_eq. cbv zeta.
    now destruct (socket_ok b), (connect_ok b). }
  exists s. split; [exact Hrun|]. split; [exact Hattempts|]. split; [|split].
  - intros Hfail. pose proof (startup_logs_failure b Hfail) as Hlog.
    split; [exact Hlog|]. now apply (run_console evs (startup b)).
  - intros Hso Hco. rewrite Hattempts, Hso. split; [|reflexivity].
    rewrite startup_eq, Hso, Hco. reflexivity.
  - intros Hso.
    assert (Hd : dealer s = None).
    { apply (run_dealer_absent evs (startup b)); [|exact Hrun].
      rewrite startup_eq, Hso. reflexivity. }
    split; [exact Hd|]. unfold disconnected. now rewrite Hd.
Qed.

Lemma upstream_is_tried_once_witness :
  (exists s,
     run [Tick demo_draws; PostCommand buy_order; Tick demo_draws] (startup refused_boot)
       = Some s /\
     connect_attempts (zmq s) = 1%nat /\
     In connect_failed (console s) /\
     zmq (startup refused_boot) = [ZSocket true; ZConnect false]) /\
  (exists s,
     run [Tick demo_draws; PostCommand buy_order; Tick demo_draws] (startup offline_boot)
       = Some s /\
     connect_attempts (zmq s) = 0%nat /\
     In connect_failed (console s) /\ dealer s = None).
Proof.
  split.
  - destruct (upstream_is_tried_once refused_boot
                [Tick demo_draws; PostCommand buy_order; Tick demo_draws])
      as (s & Hrun & Hc & Hlog & Hfail & _).
    exists s. split; [exact Hrun|]. split; [exact Hc|].
    split; [exact (proj2 (Hlog eq_refl))|]. exact (proj1 (Hfail eq_refl eq_refl)).
  - destruct (upstream_is_tried_once offline_boot
                [Tick demo_draws; PostCommand buy_order; Tick demo_draws])
      as (s & Hrun & Hc & Hlog & _ & Hd).
    exists s. split; [exact Hrun|]. split; [exact Hc|].
    split; [exact (proj2 (Hlog eq_refl))|]. exact (proj1 (Hd eq_refl)).
Defined.

(** ** Simulated and live data *)

Lemma simulated_bid_nonzero (e : Draws) :
  in_unit_interval (random_movement e) ->
  bid_is_nonzero (simulated_marketData e) = true.
Proof.
  intros [Hlo Hhi]. unfold bid_is_nonzero, simulated_marketData.
  cbn [prop assoc String.eqb Ascii.eqb Bool.eqb is_zero].
  apply negb_true_iff. destruct (Qeq_bool _ 0) eqn:Hz; [|reflexivity].
  apply Qeq_bool_iff in Hz. unfold simulated_bid, basePrice in Hz. lra.
Qed.

Lemma tick_idle (e : Draws) (s : Server) :
  bid_is_nonzero (marketData s) = true -> simulate_tick e s = (Normal tt, s).
Proof.
  unfold bid_is_nonzero. rewrite simulate_tick_eq.
  destruct (prop (marketData s) "bid") as [bid|]; [|discriminate].
  now intros ->%negb_true_iff.
Qed.

Lemma tick_fires (e : Draws) (s : Server) :
  bid_is_zero (marketData s) = true ->
  simulate_tick e s =
  (Normal tt,
   with_wire (wire s ++ fan_out s (market_data_message (simulated_marketData e)))
     (with_marketData (simulated_marketData e) s)).
Proof.
  unfold bid_is_zero. rewrite simulate_tick_eq.
  destruct (prop (marketData s) "bid") as [bid|]; [|discriminate].
  now intros ->.
Qed.

Lemma step_spares_bid (ev : Event) (s : Server) :
  bid_is_nonzero (marketData s) = true ->
  spares_bid ev = true ->
  exists s', step ev s = Some s' /\ bid_is_nonzero (marketData s') = true.
Proof.
  intros Hbid Hev. destruct (quiet ev) eqn:Hq.
  - destruct (step_quiet ev s Hq) as (s' & Hstep & Hmd).
    exists s'. split; [exact Hstep|congruence].
  - destruct ev as [ws|ws message|ws|ws|message|l|e| |req_body]; try discriminate;
      cbn [step].
    + destruct (dealer s); [|now exists s].
      rewrite (callback_returns _ _ (dealer_on_message_returns message s)).
      eexists. split; [reflexivity|]. rewrite dealer_on_message_marketData.
      cbn [quiet] in Hq. apply negb_false_iff in Hq.
      destruct message as [raw|data]; [discriminate|].
      cbn [spares_bid] in Hev. rewrite Hq in *. exact Hev.
    + unfold callback. rewrite (tick_idle e s Hbid). now exists s.
Qed.

Lemma run_spares_bid (evs : list Event) (s : Server) :
  bid_is_nonzero (marketData s) = true ->
  forallb spares_bid evs = true ->
  exists s', run evs s = Some s' /\ bid_is_nonzero (marketData s') = true.
Proof.
  revert s. induction evs as [|ev evs IH]; intros s Hbid Hevs.
  - now exists s.
  - cbn [forallb] in Hevs. apply andb_true_iff in Hevs as [Hev Hevs].
    destruct (step_spares_bid ev s Hbid Hev) as (s1 & Hstep & Hbid1).
    cbn [run]. rewrite Hstep. now apply IH.
Qed.

(** C10 as stated fails: an upstream update has set the bid to 1.0750, and
    still a later timer tick replaces the stored snapshot: the live snapshot
    with bid 0 that arrived in between is overwritten by simulated data. *)
Lemma simulator_overwrites_live_zero_bid :
  option_map marketData (run (firstn 1 zero_quote_then_tick) (startup demo_boot))
    = Some (quote 1.0750) /\
  bid_is_nonzero (quote 1.0750) = true /\
  option_map marketData (run (firstn 2 zero_quote_then_tick) (startup demo_boot))
    = Some (quote 0) /\
  option_map marketData (run zero_quote_then_tick (startup demo_boot))
    = Some (simulated_marketData demo_draws) /\
  simulated_marketData demo_draws <> quote 0.
Proof.
  split; [reflexivity|]. split; [reflexivity|]. split; [reflexivity|].
  split; [reflexivity|]. discriminate.
Qed.

(** C10, amended.  The timer callback replaces the stored snapshot exactly
    when its [bid] is the number 0: with any other bid it returns with the
    whole state unchanged, and with bid 0 it stores the simulated snapshot,
    whose own bid is nonzero for every [Math.random()] in [0, 1).  Hence once
    the bid is nonzero, every later tick leaves the state as it found it for
    as long as no upstream snapshot brings a bid of 0 (or none) again. *)
Theorem simulator_only_replaces_zero_bid (s : Server) (e : Draws) :
  (bid_is_nonzero (marketData s) = true -> simulate_tick e s = (Normal tt, s)) /\
  (bid_is_zero (marketData s) = true ->
   marketData (snd (simulate_tick e s)) = simulated_marketData e /\
   (in_unit_interval (random_movement e) ->
    bid_is_nonzero (marketData (snd (simulate_tick e s))) = true)) /\
  (forall before,
     bid_is_nonzero (marketData s) = true ->
     forallb spares_bid before = true ->
     exists s1, run before s = Some s1 /\ step (Tick e) s1 = Some s1).
Proof.
  split; [apply tick_idle|]. split.
  - intros Hz. rewrite (tick_fires e s Hz). cbn [snd marketData with_wire with_marketData].
    split; [reflexivity|apply simulated_bid_nonzero].
  - intros before Hbid Hevs.
    destruct (run_spares_bid before s Hbid Hevs) as (s1 & Hrun & Hbid1).
    exists s1. split; [exact Hrun|].
    cbn [step]. unfold callback. now rewrite (tick_idle e s1 Hbid1).
Qed.

Lemma simulator_only_replaces_zero_bid_witness :
  simulate_tick demo_draws live = (Normal tt, live) /\
  bid_is_nonzero (marketData (snd (simulate_tick demo_draws (startup demo_boot)))) = true /\
  exists s1,
    run [Tick demo_draws; Upstream (Document (quote 1.0761)); Connection 2;
         Upstream (Garbled "PING"); Tick demo_draws] live = Some s1 /\
    step (Tick demo_draws) s1 = Some s1.
Proof.
  split; [|split].
  - exact (proj1 (simulator_only_replaces_zero_bid live demo_draws) eq_refl).
  - apply (proj1 (proj2 (simulator_only_replaces_zero_bid (startup demo_boot) demo_draws)));
      [reflexivity|].
    split; vm_compute; congruence.
  - exact (proj2 (proj2 (simulator_only_replaces_zero_bid live demo_draws))
             [Tick demo_draws; Upstream (Document (quote 1.0761)); Connection 2;
              Upstream (Garbled "PING"); Tick demo_draws]
             eq_refl eq_refl).
Defined.

(** * Further properties of the handlers *)

(** ** What each handler does to the sockets *)

Lemma sendToMT4_sockets (command params : JsVal) (s : Server) :
  let s' := snd (sendToMT4 command params s) in
  wire s' = wire s /\ clients s' = clients s /\ readyState s' = readyState s.
Proof.
  cbv zeta. rewrite sendToMT4_eq. cbv zeta.
  destruct (dealer s) as [[|]|]; cbn; auto.
Qed.

Lemma ws_on_message_sockets (ws : WebSocket) (message : Frame) (s : Server) :
  let s' := snd (ws_on_message ws message s) in
  clients s' = clients s /\ readyState s' = readyState s /\
  (wire s' = wire s \/
   wire s' = wire s ++ [(ws, history_data_message)] /\ readyState s ws = OPEN).
Proof.
  cbv zeta. rewrite ws_on_message_eq.
  destruct message as [raw|[| | | | |fields]]; try solve [cbn; auto]. cbv zeta.
  destruct (is_string (assoc "type" fields) "command").
  - cbn [snd].
    destruct (sendToMT4_sockets (assoc "command" fields) (assoc "params" fields)
                (note (heard (JObject fields)) s)) as (Hw & Hc & Hr).
    cbv zeta in *. rewrite Hw, Hc, Hr. cbn. auto.
  - destruct (is_string (assoc "type" fields) "get_history"); [|cbn; auto].
    destruct (readyState s ws) eqn:Hws; cbn; auto.
Qed.

Lemma dealer_on_message_sockets (message : Frame) (s : Server) :
  let s' := snd (dealer_on_message message s) in
  clients s' = clients s /\ readyState s' = readyState s /\
  wire s' = wire s ++ match message with
                      | Document data =>
                          if snapshot_update message
                          then fan_out s (market_data_message data) else []
                      | Garbled _ => []
                      end.
Proof.
  cbv zeta. destruct (snapshot_update message) eqn:Hup.
  - destruct message as [raw|data]; [discriminate|].
    rewrite dealer_on_message_update by exact Hup. cbn. auto.
  - rewrite dealer_on_message_other by exact Hup. cbn [snd].
    cbn [clients readyState wire with_console]. rewrite <- (app_nil_r (wire s)) at 1.
    destruct message; auto.
Qed.

Lemma api_command_sockets (req_body : JValue) (s : Server) :
  let s' := snd (api_command req_body s) in
  wire s' = wire s /\ clients s' = clients s /\ readyState s' = readyState s.
Proof.
  cbv zeta. rewrite api_command_eq.
  destruct (prop req_body "command") as [command|]; [|cbn; auto].
  destruct (prop req_body "params") as [params|]; [|cbn; auto].
  destruct (truthy command); [|cbn; auto].
  cbn [snd]. apply sendToMT4_sockets.
Qed.

Lemma fan_out_open (s : Server) (message : Frame) (c : WebSocket) (m : Frame) :
  In (c, m) (fan_out s message) -> readyState s c = OPEN /\ m = message.
Proof. intros H%in_fan_out. tauto. Qed.

(** What one step does to the registry and to the sockets: the registry and
    the ready states change only as the event says, and every frame written
    is one of the two typed frames and goes to a socket that is open. *)
Lemma step_sockets (ev : Event) (s s' : Server) :
  step ev s = Some s' ->
  clients s' = match ev with
               | Connection ws => Set_add ws (clients s)
               | Close ws => Set_delete ws (clients s)
               | _ => clients s
               end /\
  readyState s' = match ev with
                  | Connection ws => readyState (set_readyState ws OPEN s)
                  | Closing ws => readyState (set_readyState ws CLOSING s)
                  | Close ws => readyState (set_readyState ws CLOSED s)
                  | _ => readyState s
                  end /\
  exists new, wire s' = wire s ++ new /\
              forall c m, In (c, m) new -> readyState s' c = OPEN /\ typed_frame m.
Proof.
  destruct ev as [ws|ws message|ws|ws|message|l|e| |req_body]; cbn [step].
  - intros H%callback_inv. rewrite wss_on_connection_eq in H. cbv zeta in H.
    destruct (is_open _) eqn:Hopen; [|discriminate]. injection H as <-.
    cbn -[Nat.eqb]. split; [reflexivity|]. split; [reflexivity|].
    eexists. split; [reflexivity|]. intros c m [[= <- <-]|[]].
    rewrite Nat.eqb_refl. split; [reflexivity|]. right. now eexists.
  - intros H%callback_inv.
    destruct (ws_on_message_sockets ws message s) as (Hc & Hr & Hw).
    cbv zeta in *. rewrite H in *. cbn [snd] in *.
    split; [exact Hc|]. split; [exact Hr|].
    destruct Hw as [Hw|[Hw Hopen]].
    + exists []. rewrite app_nil_r. split; [exact Hw|]. intros c m [].
    + eexists. split; [exact Hw|]. intros c m [[= <- <-]|[]].
      rewrite Hr. split; [exact Hopen|]. now left.
  - intros [= <-]. cbn -[Nat.eqb]. split; [reflexivity|]. split; [reflexivity|].
    exists []. rewrite app_nil_r. split; [reflexivity|]. intros c m [].
  - intros H%callback_inv. injection H as <-. cbn -[Nat.eqb].
    split; [reflexivity|]. split; [reflexivity|].
    exists []. rewrite app_nil_r. split; [reflexivity|]. intros c m [].
  - destruct (dealer s).
    + intros H%callback_inv.
      destruct (dealer_on_message_sockets message s) as (Hc & Hr & Hw).
      cbv zeta in *. rewrite H in *. cbn [snd] in *.
      split; [exact Hc|]. split; [exact Hr|].
      eexists. split; [exact Hw|]. intros c m Hin. rewrite Hr.
      destruct message as [raw|data]; [destruct Hin|].
      destruct (snapshot_update (Document data)); [|destruct Hin].
      apply fan_out_open in Hin as [Hopen ->]. split; [exact Hopen|].
      right. now eexists.
    + intros [= <-]. split; [reflexivity|]. split; [reflexivity|].
      exists []. rewrite app_nil_r. split; [reflexivity|]. intros c m [].
  - destruct (dealer s); intros [= <-]; (split; [reflexivity|]);
      (split; [reflexivity|]); exists []; rewrite app_nil_r;
      (split; [reflexivity|]); intros c m [].
  - intros H%callback_inv. rewrite simulate_tick_eq in H.
    destruct (prop _ _) as [bid|]; [|discriminate].
    destruct (is_zero bid); injection H as <-.
    + cbn. split; [reflexivity|]. split; [reflexivity|].
      eexists. split; [reflexivity|]. intros c m Hin.
      apply fan_out_open in Hin as [Hopen ->]. split; [exact Hopen|].
      right. now eexists.
    + split; [reflexivity|]. split; [reflexivity|].
      exists []. rewrite app_nil_r. split; [reflexivity|]. intros c m [].
  - intros [= <-]. cbn. split; [reflexivity|]. split; [reflexivity|].
    exists []. rewrite app_nil_r. split; [reflexivity|]. intros c m [].
  - unfold route. intros [= <-].
    destruct (api_command_sockets req_body s) as (Hw & Hc & Hr). cbv zeta in *.
    split; [exact Hc|]. split; [exact Hr|].
    exists []. rewrite app_nil_r. split; [exact Hw|]. intros c m [].
Qed.

(** ** Invariants of a run *)

Section Invariant.
Variable P : Server -> Prop.
Hypothesis step_keeps : forall ev s s', P s -> step ev s = Some s' -> P s'.

Lemma run_keeps (evs : list Event) (s s' : Server) :
  P s -> run evs s = Some s' -> P s'.
Proof.
  revert s. induction evs as [|ev evs IH]; intros s HP; cbn [run].
  - now intros [= <-].
  - destruct (step ev s) as [s1|] eqn:Hstep; [|discriminate].
    apply IH. now apply step_keeps with ev s.
Qed.

(** From start-up the process never dies, so the invariant holds at the end
    of every run. *)
Lemma reachable_keeps (b : Boot) (evs : list Event) :
  P (startup b) -> exists s, run evs (startup b) = Some s /\ P s.
Proof.
  intros HP. destruct (run_defined evs (startup b)) as (s & Hrun & _).
  { now rewrite startup_marketData. }
  exists s. split; [exact Hrun|]. now apply run_keeps with evs (startup b).
Qed.
End Invariant.

Lemma startup_sockets (b : Boot) :
  clients (startup b) = [] /\ wire (startup b) = [] /\
  readyState (startup b) = fun _ => CONNECTING.
Proof. rewrite startup_eq. cbv zeta. now destruct (socket_ok b), (connect_ok b). Qed.

Lemma Set_add_NoDup (ws : WebSocket) (cs : list WebSocket) :
  NoDup cs -> NoDup (Set_add ws cs).
Proof.
  intros Hnd. unfold Set_add. destruct (existsb (Nat.eqb ws) cs) eqn:He; [exact Hnd|].
  apply NoDup_app; [exact Hnd|repeat constructor; intros []|].
  intros c Hin [->|[]].
  assert (existsb (Nat.eqb c) cs = true) by (apply existsb_exists; exists c;
    split; [exact Hin|apply Nat.eqb_refl]).
  congruence.
Qed.

Lemma Set_add_elements (ws c : WebSocket) (cs : list WebSocket) :
  In c (Set_add ws cs) <-> c = ws \/ In c cs.
Proof.
  unfold Set_add. destruct (existsb (Nat.eqb ws) cs) eqn:He.
  - apply existsb_exists in He as (c' & Hin & ->%Nat.eqb_eq).
    split; [auto|]. intros [->|H]; assumption.
  - rewrite in_app_iff. cbn. intuition.
Qed.

Lemma Set_delete_elements (ws c : WebSocket) (cs : list WebSocket) :
  In c (Set_delete ws cs) <-> c <> ws /\ In c cs.
Proof.
  unfold Set_delete. rewrite filter_In, negb_true_iff, Nat.eqb_neq. intuition.
Qed.

Lemma Set_delete_NoDup (ws : WebSocket) (cs : list WebSocket) :
  NoDup cs -> NoDup (Set_delete ws cs).
Proof. apply NoDup_filter. Qed.

Lemma Set_delete_absent (ws : WebSocket) (cs : list WebSocket) :
  ~ In ws cs -> Set_delete ws cs = cs.
Proof.
  intros Hnot. unfold Set_delete. induction cs as [|c cs IH]; [reflexivity|].
  cbn [filter]. destruct (Nat.eqb ws c) eqn:E.
  - apply Nat.eqb_eq in E. subst c. exfalso. apply Hnot. now left.
  - cbn [negb]. rewrite IH; [reflexivity|]. intros H. apply Hnot. now right.
Qed.

Lemma Set_delete_add (ws : WebSocket) (cs : list WebSocket) :
  ~ In ws cs -> Set_delete ws (Set_add ws cs) = cs.
Proof.
  intros Hnot. unfold Set_add.
  destruct (existsb (Nat.eqb ws) cs) eqn:He.
  - apply existsb_exists in He as (c & Hin & ->%Nat.eqb_eq). contradiction.
  - unfold Set_delete. rewrite filter_app. cbn [filter]. rewrite Nat.eqb_refl.
    cbn [negb]. rewrite app_nil_r. now apply Set_delete_absent.
Qed.

(** ** The registry of sessions *)

Lemma step_NoDup (ev : Event) (s s' : Server) :
  NoDup (clients s) -> step ev s = Some s' -> NoDup (clients s').
Proof.
  intros Hnd Hstep. destruct (step_sockets ev s s' Hstep) as (Hc & _ & _).
  rewrite Hc. destruct ev; auto using Set_add_NoDup, Set_delete_NoDup.
Qed.

(** X1.  In every run from start-up the registry [clients] lists no socket
    twice, however often a socket is announced, so a broadcast hands each
    open session exactly one copy of the frame. *)
Theorem registry_has_no_duplicates (b : Boot) (evs : list Event) :
  exists s, run evs (startup b) = Some s /\
            NoDup (clients s) /\
            NoDup (map fst (sent_by broadcastMarketData s)).
Proof.
  destruct (reachable_keeps (fun s => NoDup (clients s)) step_NoDup b evs)
    as (s & Hrun & Hnd).
  { destruct (startup_sockets b) as (-> & _). constructor. }
  exists s. split; [exact Hrun|]. split; [exact Hnd|].
  unfold sent_by. rewrite broadcastMarketData_eq. cbn [snd wire with_wire].
  rewrite skipn_length_app. unfold fan_out, open_clients. rewrite map_map. cbn [fst]. rewrite map_id.
  now apply NoDup_filter.
Qed.

Lemma step_registry_live (ev : Event) (s s' : Server) :
  registry_live s -> step ev s = Some s' -> registry_live s'.
Proof.
  unfold registry_live. intros Hlive Hstep c.
  destruct (step_sockets ev s s' Hstep) as (Hc & Hr & _). rewrite Hc, Hr.
  destruct ev as [ws|ws message|ws|ws|message|l|e| |req_body]; auto;
    cbn [readyState set_readyState with_readyState].
  - intros [->|Hin]%Set_add_elements; [now rewrite Nat.eqb_refl|].
    destruct (Nat.eqb c ws); [reflexivity|auto].
  - intros Hin. destruct (Nat.eqb c ws); [reflexivity|auto].
  - intros [Hne Hin]%Set_delete_elements.
    apply Nat.eqb_neq in Hne. rewrite Hne. auto.
Qed.

(** X2.  In every run from start-up, every socket in the registry has
    connected and has not been closed: its ready state is [OPEN] or [CLOSING],
    never [CONNECTING] or [CLOSED].  The close handler leaves no closed socket
    behind. *)
Theorem registry_holds_live_sockets (b : Boot) (evs : list Event) :
  exists s, run evs (startup b) = Some s /\
            forall c, In c (clients s) -> live_socket (readyState s c) = true.
Proof.
  apply (reachable_keeps registry_live step_registry_live).
  intros c. destruct (startup_sockets b) as (-> & _). intros [].
Qed.

Lemma registry_holds_live_sockets_witness :
  exists s,
    run [Connection 1; Connection 2; Closing 2; Connection 3; Close 3; Close 3]
        (startup demo_boot) = Some s /\
    clients s = [1%nat; 2%nat] /\
    live_socket (readyState s 2) = true.
Proof.
  destruct (registry_holds_live_sockets demo_boot
              [Connection 1; Connection 2; Closing 2; Connection 3; Close 3; Close 3])
    as (s & Hrun & Hlive).
  exists s. split; [exact Hrun|].
  assert (Hc : clients s = [1%nat; 2%nat]).
  { vm_compute in Hrun. injection Hrun as <-. reflexivity. }
  split; [exact Hc|]. apply Hlive. rewrite Hc. right. now left.
Defined.

(** X3.  Connecting and then closing a socket that was not registered leaves
    the registry as it was; the close handler always removes the socket, and
    running it again changes nothing more. *)
Theorem connect_then_close_restores_registry (ws : WebSocket) (s : Server) :
  (exists s1, step (Close ws) s = Some s1 /\ ~ In ws (clients s1) /\
     exists s2, step (Close ws) s1 = Some s2 /\ clients s2 = clients s1) /\
  (~ In ws (clients s) ->
   exists s', run [Connection ws; Close ws] s = Some s' /\
              clients s' = clients s /\ marketData s' = marketData s).
Proof.
  split.
  - cbn [step]. unfold callback, ws_on_close, bind, console_log, modify.
    eexists. split; [reflexivity|]. cbn [clients with_clients with_console
      set_readyState with_readyState].
    split; [rewrite Set_delete_elements; tauto|].
    eexists. split; [reflexivity|]. cbn [clients with_clients with_console
      set_readyState with_readyState].
    apply Set_delete_absent. rewrite Set_delete_elements. tauto.
  - intros Hnot. destruct (step_Connection ws s) as (s1 & Hstep & _ & _ & _ & Hmd).
    destruct (step_sockets _ _ _ Hstep) as (Hc & _ & _).
    cbn [run]. rewrite Hstep. cbn [step]. unfold callback, ws_on_close, bind,
      console_log, modify. eexists. split; [reflexivity|].
    cbn [clients marketData with_clients with_console set_readyState with_readyState].
    rewrite Hc, Hmd. split; [now apply Set_delete_add|reflexivity].
Qed.

Lemma connect_then_close_restores_registry_witness :
  exists s', run [Connection 7; Close 7] three_clients = Some s' /\
             clients s' = clients three_clients /\
             marketData s' = marketData three_clients.
Proof.
  apply (proj2 (connect_then_close_restores_registry 7 three_clients)).
  vm_compute. intuition discriminate.
Defined.

(** ** What reaches the clients *)

Lemma step_typed (ev : Event) (s s' : Server) :
  (forall c m, In (c, m) (wire s) -> typed_frame m) ->
  step ev s = Some s' ->
  forall c m, In (c, m) (wire s') -> typed_frame m.
Proof.
  intros Hold Hstep c m. destruct (step_sockets ev s s' Hstep) as (_ & _ & new & -> & Hnew).
  intros [Hin|Hin]%in_app_or; [now apply Hold with c|]. now apply (Hnew c m).
Qed.

(** X4.  In every run from start-up, every frame the process has written to a
    client socket is either the [history_data] document or a [market_data]
    document carrying some snapshot: clients are never sent anything else. *)
Theorem clients_only_get_typed_frames (b : Boot) (evs : list Event) :
  exists s, run evs (startup b) = Some s /\
            forall c m, In (c, m) (wire s) -> typed_frame m.
Proof.
  apply (reachable_keeps _ step_typed).
  destruct (startup_sockets b) as (_ & -> & _). intros c m [].
Qed.

Lemma clients_only_get_typed_frames_witness :
  exists s,
    run [Connection 1; Message 1 get_history; Tick demo_draws;
         Upstream (Document (quote 1.0761))] (startup demo_boot) = Some s /\
    List.length (wire s) = 4%nat /\
    typed_frame history_data_message.
Proof.
  destruct (clients_only_get_typed_frames demo_boot
              [Connection 1; Message 1 get_history; Tick demo_draws;
               Upstream (Document (quote 1.0761))]) as (s & Hrun & Htyped).
  exists s. split; [exact Hrun|].
  assert (Hw : exists w1 w3 w4, wire s = [w1; (1%nat, history_data_message); w3; w4]).
  { vm_compute in Hrun. injection Hrun as <-. do 3 eexists. reflexivity. }
  destruct Hw as (w1 & w3 & w4 & Hw). split; [now rewrite Hw|].
  apply (Htyped 1%nat). rewrite Hw. right. now left.
Defined.

Lemma run_app (evs1 evs2 : list Event) (s : Server) :
  run (evs1 ++ evs2) s =
  match run evs1 s with
  | Some s1 => run evs2 s1
  | None => None
  end.
Proof.
  revert s. induction evs1 as [|ev evs1 IH]; intros s; [reflexivity|].
  cbn [app run]. destruct (step ev s); [apply IH|reflexivity].
Qed.

Lemma step_spares_closed (ws : WebSocket) (ev : Event) (s s' : Server) :
  readyState s ws <> OPEN -> connects ws ev = false -> step ev s = Some s' ->
  readyState s' ws <> OPEN /\
  exists new, wire s' = wire s ++ new /\ forall m, ~ In (ws, m) new.
Proof.
  intros Hshut Hev Hstep.
  destruct (step_sockets ev s s' Hstep) as (_ & Hr & new & Hw & Hnew).
  assert (Hshut' : readyState s' ws <> OPEN).
  { rewrite Hr. destruct ev as [c|c message|c|c|message|l|e| |req_body]; auto;
      cbn [readyState set_readyState with_readyState];
      destruct (Nat.eqb ws c) eqn:E; auto; try discriminate.
    cbn [connects] in Hev. apply Nat.eqb_eq in E. subst c.
    now rewrite Nat.eqb_refl in Hev. }
  split; [exact Hshut'|]. exists new. split; [exact Hw|].
  intros m Hin. now destruct (Hnew ws m Hin).
Qed.

Lemma run_spares_closed (ws : WebSocket) (evs : list Event) (s s' : Server) :
  readyState s ws <> OPEN ->
  forallb (fun ev => negb (connects ws ev)) evs = true ->
  run evs s = Some s' ->
  exists new, wire s' = wire s ++ new /\ forall m, ~ In (ws, m) new.
Proof.
  revert s. induction evs as [|ev evs IH]; intros s Hshut Hevs; cbn [run].
  - intros [= <-]. exists []. rewrite app_nil_r. split; [reflexivity|]. intros m [].
  - cbn [forallb] in Hevs. apply andb_true_iff in Hevs as [Hev%negb_true_iff Hevs].
    destruct (step ev s) as [s1|] eqn:Hstep; [|discriminate]. intros Hrun.
    destruct (step_spares_closed ws ev s s1 Hshut Hev Hstep) as (Hshut1 & new1 & Hw1 & Hn1).
    destruct (IH s1 Hshut1 Hevs Hrun) as (new2 & Hw2 & Hn2).
    exists (new1 ++ new2). rewrite Hw2, Hw1, app_assoc. split; [reflexivity|].
    intros m [Hin|Hin]%in_app_or; [now apply (Hn1 m)|now apply (Hn2 m)].
Qed.

(** X5.  Once a socket has been closed, nothing more is written to it: in
    every run from start-up, after the close of [ws] and for as long as [ws]
    does not connect again, no broadcast, no history reply and no other
    frame is addressed to [ws]. *)
Theorem closed_session_gets_nothing
  (b : Boot) (before : list Event) (ws : WebSocket) (evs : list Event) :
  forallb (fun ev => negb (connects ws ev)) evs = true ->
  exists s1 s2,
    run (before ++ [Close ws]) (startup b) = Some s1 /\
    run evs s1 = Some s2 /\
    readyState s1 ws = CLOSED /\ ~ In ws (clients s1) /\
    forall m, ~ In (ws, m) (written_since s1 s2).
Proof.
  intros Hevs.
  destruct (run_defined ((before ++ [Close ws]) ++ evs) (startup b)) as (s2 & Hrun & _).
  { now rewrite startup_marketData. }
  rewrite run_app in Hrun.
  destruct (run (before ++ [Close ws]) (startup b)) as [s1|] eqn:Hrun1; [|discriminate].
  exists s1, s2. split; [reflexivity|]. split; [exact Hrun|].
  rewrite run_app in Hrun1.
  destruct (run before (startup b)) as [s0|]; [|discriminate].
  cbn [run] in Hrun1. destruct (step (Close ws) s0) as [s1'|] eqn:Hclose; [|discriminate].
  injection Hrun1 as ->.
  destruct (step_sockets _ _ _ Hclose) as (Hc & Hr & _).
  assert (Hshut : readyState s1 ws = CLOSED).
  { rewrite Hr. cbn [readyState set_readyState with_readyState].
    now rewrite Nat.eqb_refl. }
  split; [exact Hshut|]. split; [rewrite Hc, Set_delete_elements; tauto|].
  destruct (run_spares_closed ws evs s1 s2) as (new & Hw & Hnew); auto.
  { rewrite Hshut. discriminate. }
  unfold written_since. rewrite Hw, skipn_length_app. exact Hnew.
Qed.

Lemma closed_session_gets_nothing_witness :
  exists s1 s2,
    run ([Connection 1; Connection 2] ++ [Close 2]) (startup demo_boot) = Some s1 /\
    run [Message 2 get_history; Upstream (Document (quote 1.0761)); Tick demo_draws]
        s1 = Some s2 /\
    written_since s1 s2 = [(1%nat, market_data_message (quote 1.0761))].
Proof.
  destruct (closed_session_gets_nothing demo_boot [Connection 1; Connection 2] 2
              [Message 2 get_history; Upstream (Document (quote 1.0761));
               Tick demo_draws] eq_refl) as (s1 & s2 & H1 & H2 & _).
  exists s1, s2. split; [exact H1|]. split; [exact H2|].
  vm_compute in H1. injection H1 as <-.
  vm_compute in H2. injection H2 as <-. reflexivity.
Defined.

(** ** Requests from clients *)

(** X6.  A [{type: "command"}] record from a client is forwarded without any
    check of its [command]: the handler returns normally, writes to no client
    socket and leaves the snapshot alone; when the link is up exactly one
    frame, [{command, params}] with whatever the record held (the empty record
    [{}] if it held neither), is accepted by the upstream, and when the
    upstream is out of reach none is.  For a command the HTTP route accepts,
    both routes make the same calls on the zeromq binding. *)
Theorem ws_command_is_forwarded_unchecked
  (s : Server) (ws : WebSocket) (fields : list (string * JValue)) :
  is_string (assoc "type" fields) "command" = true ->
  let handler := ws_on_message ws (Document (JObject fields)) in
  let frame := command_message (assoc "command" fields) (assoc "params" fields) in
  fst (handler s) = Normal tt /\
  wire (snd (handler s)) = wire s /\
  marketData (snd (handler s)) = marketData s /\
  (dealer s = Some Up ->
   transmitted (zmq (snd (handler s))) = transmitted (zmq s) ++ [frame]) /\
  (disconnected s = true ->
   transmitted (zmq (snd (handler s))) = transmitted (zmq s)) /\
  (assoc "command" fields = undefined -> assoc "params" fields = undefined ->
   frame = Document (JObject [])) /\
  (forall req_body,
     prop req_body "command" = Normal (assoc "command" fields) ->
     prop req_body "params" = Normal (assoc "params" fields) ->
     truthy (assoc "command" fields) = true ->
     zmq (snd (api_command req_body s)) = zmq (snd (handler s))).
Proof.
  intros Htype handler frame.
  assert (Heq : handler s =
                (Normal tt, snd (sendToMT4 (assoc "command" fields) (assoc "params" fields)
                                   (note (heard (JObject fields)) s)))).
  { unfold handler. rewrite ws_on_message_eq. cbv zeta. now rewrite Htype. }
  rewrite Heq. cbn [fst snd]. split; [reflexivity|].
  destruct (sendToMT4_sockets (assoc "command" fields) (assoc "params" fields)
              (note (heard (JObject fields)) s)) as (Hw & _). cbv zeta in Hw.
  split; [exact Hw|]. split; [now rewrite sendToMT4_marketData|].
  rewrite sendToMT4_eq. cbv zeta. cbn [dealer note with_console].
  split; [|split; [|split]].
  - intros ->. cbn [snd zmq with_console with_zmq note].
    rewrite transmitted_app. reflexivity.
  - unfold disconnected. destruct (dealer s) as [[|]|]; try discriminate; intros _;
      cbn [snd zmq with_console with_zmq note]; rewrite ?transmitted_app;
      cbn [transmitted]; rewrite ?app_nil_r; reflexivity.
  - unfold frame. intros -> ->. reflexivity.
  - intros req_body Hc Hp Ht. rewrite api_command_eq, Hc, Hp, Ht. cbn [snd].
    rewrite sendToMT4_eq. cbv zeta. destruct (dealer s) as [[|]|]; reflexivity.
Qed.

Lemma ws_command_is_forwarded_unchecked_witness :
  transmitted (zmq (snd (ws_on_message 1 (Document (JObject [("type", JString "command")]))
                           live)))
  = transmitted (zmq live) ++ [Document (JObject [])].
Proof.
  exact (proj1 (proj2 (proj2 (proj2
           (ws_command_is_forwarded_unchecked live 1 [("type", JString "command")]
              eq_refl)))) eq_refl).
Defined.

(** X7.  A client frame the handler has no case for (text that is not JSON, a
    value that is not a record, a record of another [type]) is contained: the
    handler returns normally and changes nothing but the console, to which it
    adds at least one line; no socket is written, nothing goes upstream. *)
Theorem unhandled_request_changes_only_console
  (s : Server) (ws : WebSocket) (message : Frame) :
  unhandled_request message = true ->
  let s' := snd (ws_on_message ws message s) in
  fst (ws_on_message ws message s) = Normal tt /\
  wire s' = wire s /\ zmq s' = zmq s /\ marketData s' = marketData s /\
  clients s' = clients s /\ dealer s' = dealer s /\
  exists lines, lines <> [] /\ console s' = console s ++ lines.
Proof.
  intros Hun. cbv zeta. split; [apply ws_on_message_returns|].
  rewrite ws_on_message_eq.
  destruct message as [raw|[| | | | |fields]];
    try (cbn [snd wire zmq marketData clients dealer console note with_console];
         repeat (split; [reflexivity|]); eexists; split; [|reflexivity]; discriminate).
  - cbn [snd wire zmq marketData clients dealer console note with_console].
    repeat (split; [reflexivity|]). rewrite <- app_assoc.
    eexists; split; [|reflexivity]; discriminate.
  - cbn [unhandled_request] in Hun. apply andb_true_iff in Hun as [H1 H2].
    apply negb_true_iff in H1, H2. cbv zeta. rewrite H1, H2.
    cbn [snd wire zmq marketData clients dealer console note with_console].
    repeat (split; [reflexivity|]). eexists; split; [|reflexivity]; discriminate.
Qed.

Lemma unhandled_request_changes_only_console_witness :
  wire (snd (ws_on_message 1 (Garbled "hello") live)) = wire live /\
  zmq (snd (ws_on_message 1 (Document (JObject [("type", JString "subscribe")])) live))
    = zmq live.
Proof.
  split.
  - exact (proj1 (proj2 (unhandled_request_changes_only_console live 1
                           (Garbled "hello") eq_refl))).
  - exact (proj1 (proj2 (proj2 (unhandled_request_changes_only_console live 1
             (Document (JObject [("type", JString "subscribe")])) eq_refl)))).
Defined.

(** ** The simulator *)

(** X9.  A timer tick that finds bid 0 broadcasts what it stores: every open
    registered session is handed one [market_data] frame carrying the
    simulated snapshot that is now in [marketData]; a tick that finds any
    other bid writes to no socket. *)
Theorem tick_broadcasts_what_it_stores (s : Server) (e : Draws) :
  let s' := snd (simulate_tick e s) in
  (bid_is_zero (marketData s) = true ->
   marketData s' = simulated_marketData e /\
   sent_by (simulate_tick e) s = fan_out s (market_data_message (marketData s'))) /\
  (bid_is_zero (marketData s) = false -> sent_by (simulate_tick e) s = []).
Proof.
  cbv zeta. split.
  - intros Hz. unfold sent_by. rewrite (tick_fires e s Hz).
    cbn [snd marketData wire with_wire with_marketData].
    now rewrite skipn_length_app.
  - unfold bid_is_zero, sent_by. rewrite simulate_tick_eq.
    destruct (prop (marketData s) "bid") as [bid|]; [intros ->|intros _];
      cbn [snd]; apply skipn_all.
Qed.

Lemma tick_broadcasts_what_it_stores_witness :
  sent_by (simulate_tick demo_draws) three_clients
  = [(1%nat, market_data_message (simulated_marketData demo_draws));
     (3%nat, market_data_message (simulated_marketData demo_draws))] /\
  sent_by (simulate_tick demo_draws) live = [].
Proof.
  split.
  - destruct (proj1 (tick_broadcasts_what_it_stores three_clients demo_draws) eq_refl)
      as [Hmd Hsent].
    rewrite Hsent, Hmd. reflexivity.
  - exact (proj2 (tick_broadcasts_what_it_stores live demo_draws) eq_refl).
Defined.

Lemma step_offline (ev : Event) (s : Server) :
  dealer s = None ->
  is_tick ev = false \/ bid_is_nonzero (marketData s) = true ->
  exists s', step ev s = Some s' /\ marketData s' = marketData s /\ dealer s' = None.
Proof.
  intros Hd Hcase.
  assert (Hgoal : exists s', step ev s = Some s' /\ marketData s' = marketData s).
  { destruct ev as [ws|ws message|ws|ws|message|l|e| |req_body];
      try (apply step_quiet; reflexivity).
    - cbn [step]. rewrite Hd. now exists s.
    - destruct Hcase as [Hcase|Hbid]; [discriminate|].
      cbn [step]. unfold callback. rewrite (tick_idle e s Hbid). now exists s. }
  destruct Hgoal as (s' & Hstep & Hmd). exists s'.
  split; [exact Hstep|]. split; [exact Hmd|].
  now apply step_dealer_absent with ev s.
Qed.

Lemma run_offline (evs : list Event) (s : Server) :
  dealer s = None ->
  forallb (fun ev => negb (is_tick ev)) evs = true \/
  bid_is_nonzero (marketData s) = true ->
  exists s', run evs s = Some s' /\ marketData s' = marketData s /\ dealer s' = None.
Proof.
  revert s. induction evs as [|ev evs IH]; intros s Hd Hcase.
  - now exists s.
  - destruct (step_offline ev s Hd) as (s1 & Hstep & Hmd & Hd1).
    { destruct Hcase as [Hevs|Hbid]; [left|now right].
      cbn [forallb] in Hevs. apply andb_true_iff in Hevs as [Hev _].
      now apply negb_true_iff in Hev. }
    destruct (IH s1 Hd1) as (s' & Hrun & Hmd' & Hd').
    { destruct Hcase as [Hevs|Hbid]; [left|right; now rewrite Hmd].
      cbn [forallb] in Hevs. now apply andb_true_iff in Hevs as [_ Hevs]. }
    exists s'. cbn [run]. rewrite Hstep. split; [exact Hrun|].
    split; [congruence|exact Hd'].
Qed.

(** X10.  A process that started without a dealer socket simulates exactly
    once: the first timer tick stores its simulated snapshot, and from then
    on, whatever happens (further ticks, upstream frames, clients, commands),
    [marketData] stays that one snapshot. *)
Theorem offline_snapshot_freezes_at_first_tick
  (b : Boot) (before : list Event) (e : Draws) (later : list Event) :
  socket_ok b = false ->
  forallb (fun ev => negb (is_tick ev)) before = true ->
  in_unit_interval (random_movement e) ->
  exists s, run (before ++ Tick e :: later) (startup b) = Some s /\
            marketData s = simulated_marketData e.
Proof.
  intros Hso Hbefore He.
  assert (Hd : dealer (startup b) = None) by (rewrite startup_eq, Hso; reflexivity).
  destruct (run_offline before (startup b) Hd (or_introl Hbefore))
    as (s0 & Hrun0 & Hmd0 & Hd0).
  rewrite startup_marketData in Hmd0.
  assert (Hz : bid_is_zero (marketData s0) = true) by (rewrite Hmd0; reflexivity).
  pose proof (tick_fires e s0 Hz) as Htick.
  set (s1 := snd (simulate_tick e s0)).
  assert (Hstep : step (Tick e) s0 = Some s1).
  { cbn [step]. unfold callback, s1. now rewrite Htick. }
  assert (Hmd1 : marketData s1 = simulated_marketData e)
    by (unfold s1; now rewrite Htick).
  assert (Hd1 : dealer s1 = None) by (unfold s1; now rewrite Htick).
  destruct (run_offline later s1 Hd1) as (s & Hrun & Hmd & _).
  { right. rewrite Hmd1. now apply simulated_bid_nonzero. }
  exists s. rewrite run_app, Hrun0. cbn [run]. rewrite Hstep.
  split; [exact Hrun|congruence].
Qed.

Lemma offline_snapshot_freezes_at_first_tick_witness :
  exists s,
    run ([Connection 1; Upstream (Document (quote 1.0761))]
           ++ Tick demo_draws
           :: [Upstream (Document (quote 0)); Tick demo_draws; PostCommand buy_order])
        (startup offline_boot) = Some s /\
    marketData s = simulated_marketData demo_draws.
Proof.
  apply (offline_snapshot_freezes_at_first_tick offline_boot
           [Connection 1; Upstream (Document (quote 1.0761))] demo_draws
           [Upstream (Document (quote 0)); Tick demo_draws; PostCommand buy_order]);
    try reflexivity.
  split; vm_compute; congruence.
Defined.

(** ** What reaches the upstream, and what is stored *)

Lemma sendToMT4_zmq (command params : JsVal) (s : Server) :
  zmq (snd (sendToMT4 command params s)) = zmq s \/
  exists ok, zmq (snd (sendToMT4 command params s))
             = zmq s ++ [ZSend (command_message command params) ok].
Proof.
  rewrite sendToMT4_eq. cbv zeta.
  destruct (dealer s) as [[|]|]; cbn [snd zmq with_console with_zmq];
    [right; now exists true|right; now exists false|now left].
Qed.

Lemma step_zmq (ev : Event) (s s' : Server) :
  step ev s = Some s' ->
  zmq s' = zmq s \/
  exists command params ok, zmq s' = zmq s ++ [ZSend (command_message command params) ok].
Proof.
  destruct ev as [ws|ws message|ws|ws|message|l|e| |req_body]; cbn [step].
  - intros H%callback_inv. rewrite wss_on_connection_eq in H. cbv zeta in H.
    destruct (is_open _); [|discriminate]. injection H as <-. now left.
  - intros H%callback_inv. rewrite ws_on_message_eq in H.
    destruct message as [raw|[| | | | |fields]]; try (injection H as <-; now left).
    cbv zeta in H. destruct (is_string (assoc "type" fields) "command").
    + injection H as <-.
      destruct (sendToMT4_zmq (assoc "command" fields) (assoc "params" fields)
                  (note (heard (JObject fields)) s)) as [Hz|(ok & Hz)].
      * left. exact Hz.
      * right. do 3 eexists. exact Hz.
    + destruct (is_string (assoc "type" fields) "get_history");
        [destruct (is_open _)|]; injection H as <-; now left.
  - intros [= <-]. now left.
  - intros H%callback_inv. injection H as <-. now left.
  - destruct (dealer s); [|intros [= <-]; now left].
    intros H%callback_inv. left.
    rewrite <- (dealer_on_message_zmq message s). now rewrite H.
  - destruct (dealer s); intros [= <-]; now left.
  - intros H%callback_inv. rewrite simulate_tick_eq in H.
    destruct (prop _ _) as [bid|]; [|discriminate].
    destruct (is_zero bid); injection H as <-; now left.
  - intros [= <-]. now left.
  - unfold route. intros [= <-]. rewrite api_command_eq.
    destruct (prop req_body "command") as [command|]; [|now left].
    destruct (prop req_body "params") as [params|]; [|now left].
    destruct (truthy command); [|now left]. cbn [snd].
    destruct (sendToMT4_zmq command params s) as [Hz|(ok & Hz)].
    + now left.
    + right. do 3 eexists. exact Hz.
Qed.

Lemma step_command_calls (ev : Event) (s s' : Server) :
  Forall command_call (zmq s) -> step ev s = Some s' -> Forall command_call (zmq s').
Proof.
  intros Hold Hstep.
  destruct (step_zmq ev s s' Hstep) as [->|(command & params & ok & ->)]; [exact Hold|].
  apply Forall_app. split; [exact Hold|]. repeat constructor. cbn. eauto.
Qed.

(** X11.  In every run from start-up, every frame handed to [dealer.send],
    accepted or not, is a [{command, params}] document built by [sendToMT4]:
    snapshots and client frames are never passed on upstream. *)
Theorem upstream_only_gets_commands (b : Boot) (evs : list Event) :
  exists s, run evs (startup b) = Some s /\
            forall m ok, In (ZSend m ok) (zmq s) ->
                         exists command params, m = command_message command params.
Proof.
  destruct (reachable_keeps _ step_command_calls b evs) as (s & Hrun & Hall).
  { rewrite startup_eq. cbv zeta.
    destruct (socket_ok b), (connect_ok b); repeat constructor. }
  exists s. split; [exact Hrun|]. intros m ok Hin.
  rewrite Forall_forall in Hall. exact (Hall _ Hin).
Qed.

Lemma upstream_only_gets_commands_witness :
  exists s,
    run [Connection 1; Tick demo_draws; PostCommand buy_order;
         Upstream (Document (quote 1.0761))] (startup demo_boot) = Some s /\
    exists command params,
      command_message (Some (JString "BUY")) (Some (JObject [("lots", JNum 0.1)]))
      = command_message command params.
Proof.
  destruct (upstream_only_gets_commands demo_boot
              [Connection 1; Tick demo_draws; PostCommand buy_order;
               Upstream (Document (quote 1.0761))]) as (s & Hrun & Hall).
  exists s. split; [exact Hrun|]. apply (Hall _ true).
  vm_compute in Hrun. injection Hrun as <-. cbn [zmq]. right. right. now left.
Defined.

Lemma step_symbol (ev : Event) (s s' : Server) :
  snapshot_update (Document (marketData s)) = true ->
  step ev s = Some s' ->
  snapshot_update (Document (marketData s')) = true.
Proof.
  intros Hsym Hstep. destruct (quiet ev) eqn:Hq.
  - destruct (step_quiet ev s Hq) as (s1 & Hstep1 & Hmd). congruence.
  - destruct ev as [ws|ws message|ws|ws|message|l|e| |req_body]; try discriminate;
      cbn [step] in Hstep.
    + destruct (dealer s); [|congruence].
      apply callback_inv in Hstep. cbn [quiet] in Hq. apply negb_false_iff in Hq.
      pose proof (dealer_on_message_marketData message s) as Hmd.
      rewrite Hstep, Hq in Hmd. cbn [snd] in Hmd.
      destruct message as [raw|data]; [discriminate|]. now rewrite Hmd.
    + apply callback_inv in Hstep. rewrite simulate_tick_eq in Hstep.
      destruct (prop _ _) as [bid|]; [|discriminate].
      destruct (is_zero bid); injection Hstep as <-; [reflexivity|exact Hsym].
Qed.

(** X12.  In every run from start-up the stored snapshot is a record whose
    [symbol] is truthy, be it the initial one, an upstream one or a simulated
    one, so GET /api/market-data always answers 200 with such a record. *)
Theorem stored_snapshot_always_has_symbol (b : Boot) (evs : list Event) :
  exists s, run evs (startup b) = Some s /\
            snapshot_update (Document (marketData s)) = true /\
            api_market_data s = (Normal {| status := 200; body := marketData s |}, s).
Proof.
  destruct (reachable_keeps _ step_symbol b evs) as (s & Hrun & Hsym).
  { now rewrite startup_marketData. }
  exists s. auto.
Qed.

(** ** Streams of upstream frames *)

Lemma frames_to_app (c : WebSocket) (l r : list (WebSocket * Frame)) :
  frames_to c (l ++ r) = frames_to c l ++ frames_to c r.
Proof. unfold frames_to. now rewrite filter_app, map_app. Qed.

Lemma frames_to_others (c : WebSocket) (m : Frame) (cs : list WebSocket) :
  ~ In c cs -> frames_to c (map (fun x => (x, m)) cs) = [].
Proof.
  induction cs as [|a cs IH]; [reflexivity|]. intros Hnot.
  unfold frames_to in *. cbn [map filter fst].
  destruct (Nat.eqb a c) eqn:E.
  - apply Nat.eqb_eq in E. subst a. exfalso. apply Hnot. now left.
  - apply IH. intros H. apply Hnot. now right.
Qed.

Lemma frames_to_once (c : WebSocket) (m : Frame) (cs : list WebSocket) :
  NoDup cs -> In c cs -> frames_to c (map (fun x => (x, m)) cs) = [m].
Proof.
  induction cs as [|a cs IH]; [intros _ []|]. intros Hnd Hin.
  inversion Hnd as [|a' cs' Hnot Hnd']; subst.
  change (map (fun x => (x, m)) (a :: cs))
    with ([(a, m)] ++ map (fun x => (x, m)) cs).
  rewrite frames_to_app. unfold frames_to at 1. cbn [map filter fst].
  destruct (Nat.eqb a c) eqn:E.
  - apply Nat.eqb_eq in E. subst a. now rewrite frames_to_others.
  - destruct Hin as [->|Hin]; [now rewrite Nat.eqb_refl in E|].
    cbn [map app]. now apply IH.
Qed.

Lemma frames_to_fan_out (s : Server) (c : WebSocket) (m : Frame) :
  NoDup (clients s) -> In c (clients s) -> readyState s c = OPEN ->
  frames_to c (fan_out s m) = [m].
Proof.
  intros Hnd Hin Hopen. unfold fan_out, open_clients.
  apply frames_to_once; [now apply NoDup_filter|].
  apply filter_In. split; [exact Hin|]. now rewrite Hopen.
Qed.

Lemma apply_updates_cons (message : Frame) (rest : list Frame) (s : Server) :
  apply_updates (message :: rest) s
  = apply_updates rest (snd (dealer_on_message message s)).
Proof. reflexivity. Qed.

Lemma apply_updates_written (messages : list Frame) (s : Server) :
  let s' := apply_updates messages s in
  clients s' = clients s /\ readyState s' = readyState s /\
  wire s' = wire s ++ flat_map (fun data => fan_out s (market_data_message data))
                               (snapshots messages).
Proof.
  cbv zeta. revert s. induction messages as [|message rest IH]; intros s.
  - cbn. now rewrite app_nil_r.
  - rewrite apply_updates_cons.
    destruct (dealer_on_message_sockets message s) as (Hc & Hr & Hw). cbv zeta in *.
    destruct (IH (snd (dealer_on_message message s))) as (Hc' & Hr' & Hw').
    rewrite Hc', Hr', Hw', Hc, Hr, Hw, <- app_assoc.
    split; [reflexivity|]. split; [reflexivity|]. f_equal.
    assert (Hfan : forall m, fan_out (snd (dealer_on_message message s)) m = fan_out s m).
    { intros m. unfold fan_out, open_clients. now rewrite Hc, Hr. }
    rewrite (flat_map_ext _ _ (fun data => Hfan (market_data_message data))).
    destruct message as [raw|data]; [reflexivity|]. cbn [snapshots].
    destruct (snapshot_update (Document data)); [|reflexivity].
    cbn [flat_map]. reflexivity.
Qed.

(** X13.  Upstream frames that are not snapshot updates are invisible to the
    store and to the clients: dropping them from a stream of upstream frames
    changes neither the snapshot stored at the end nor the frames written to
    the client sockets. *)
Theorem non_snapshots_leave_no_trace (messages : list Frame) (s : Server) :
  marketData (apply_updates messages s)
    = marketData (apply_updates (filter snapshot_update messages) s) /\
  wire (apply_updates messages s)
    = wire (apply_updates (filter snapshot_update messages) s).
Proof.
  assert (Hsnap : forall l, snapshots (filter snapshot_update l) = snapshots l).
  { induction l as [|m l IH]; [reflexivity|]. cbn [filter].
    destruct (snapshot_update m) eqn:Hup.
    - destruct m as [raw|data]; [discriminate|]. cbn [snapshots]. now rewrite Hup, IH.
    - destruct m as [raw|data]; cbn [snapshots]; now rewrite ?Hup. }
  split.
  - revert s. induction messages as [|m rest IH]; intros s; [reflexivity|].
    cbn [filter]. destruct (snapshot_update m) eqn:Hup.
    + rewrite !apply_updates_cons. apply IH.
    + rewrite apply_updates_cons, IH.
      assert (Hind : forall l t u, marketData t = marketData u ->
                marketData (apply_updates l t) = marketData (apply_updates l u)).
      { induction l as [|x l IHl]; intros t u Htu; [exact Htu|].
        rewrite !apply_updates_cons. apply IHl.
        rewrite !dealer_on_message_marketData. destruct x; [exact Htu|].
        now destruct (snapshot_update (Document doc)). }
      apply Hind. now rewrite dealer_on_message_marketData, Hup; destruct m.
  - destruct (apply_updates_written messages s) as (_ & _ & ->).
    destruct (apply_updates_written (filter snapshot_update messages) s) as (_ & _ & ->).
    now rewrite Hsnap.
Qed.

(** X14.  A session that is registered and open while a stream of upstream
    frames is handled receives every snapshot update of the stream exactly
    once, as a [market_data] frame, in the order of arrival, and nothing else. *)
Theorem updates_arrive_once_and_in_order
  (s : Server) (c : WebSocket) (messages : list Frame) :
  NoDup (clients s) -> In c (clients s) -> readyState s c = OPEN ->
  frames_to c (written_since s (apply_updates messages s))
  = map market_data_message (snapshots messages).
Proof.
  intros Hnd Hin Hopen. unfold written_since.
  destruct (apply_updates_written messages s) as (_ & _ & ->).
  rewrite skipn_length_app.
  induction (snapshots messages) as [|data rest IH]; [reflexivity|].
  cbn [flat_map map]. rewrite frames_to_app, IH.
  now rewrite frames_to_fan_out.
Qed.

Lemma updates_arrive_once_and_in_order_witness :
  frames_to 3 (written_since three_clients
                 (apply_updates [Document (quote 1.0750); Garbled "PING"; empty_symbol;
                                 Document (quote 1.0761)] three_clients))
  = [market_data_message (quote 1.0750); market_data_message (quote 1.0761)].
Proof.
  apply (updates_arrive_once_and_in_order three_clients 3).
  - change (clients three_clients) with [1%nat; 2%nat; 3%nat].
    repeat (apply NoDup_cons; [cbn; intuition discriminate|]). apply NoDup_nil.
  - change (clients three_clients) with [1%nat; 2%nat; 3%nat]. cbn. auto.
  - reflexivity.
Defined.

(** ** Start-up, and sessions that join late *)

(** X15.  A failure to reach MetaTrader never stops the start-up: the process
    always comes up listening, with an empty registry, nothing written and
    the initial snapshot.  The failure is reported on the console exactly
    when [zmq.socket] or [dealer.connect] raised; [dealer] stays undefined
    exactly when [zmq.socket] raised, in which case [dealer.connect] is not
    even called. *)
Theorem startup_survives_upstream_failure (b : Boot) :
  let s := startup b in
  clients s = [] /\ wire s = [] /\
  marketData s = initial_marketData (boot_time b) /\
  In (Info ("Server running on port " ++ PORT b)%string NoArg) (console s) /\
  (In connect_failed (console s) <-> socket_ok b && connect_ok b = false) /\
  (dealer s = None <-> socket_ok b = false) /\
  (dealer s = Some Up <-> socket_ok b && connect_ok b = true) /\
  (socket_ok b = false -> zmq s = [ZSocket false]).
Proof.
  cbv zeta. rewrite startup_eq. cbv zeta. unfold connect_failed.
  destruct (socket_ok b), (connect_ok b);
    cbn [clients wire marketData console dealer zmq andb In];
    repeat (split; [reflexivity|]);
    (split; [now right; left|]);
    (split; [split; [intros [H|[H|[]]]; (discriminate || reflexivity)|];
             intros H; (discriminate || (now left))|]);
    (split; [split; intros; (discriminate || reflexivity)|]);
    (split; [split; intros; (discriminate || reflexivity)|]);
    intros; (discriminate || reflexivity).
Qed.

Lemma startup_survives_upstream_failure_witness :
  zmq (startup offline_boot) = [ZSocket false] /\
  In connect_failed (console (startup refused_boot)) /\
  dealer (startup demo_boot) = Some Up.
Proof.
  split; [|split].
  - exact (proj2 (proj2 (proj2 (proj2 (proj2 (proj2 (proj2
             (startup_survives_upstream_failure offline_boot))))))) eq_refl).
  - exact (proj2 (proj1 (proj2 (proj2 (proj2 (proj2
             (startup_survives_upstream_failure refused_boot)))))) eq_refl).
  - exact (proj2 (proj1 (proj2 (proj2 (proj2 (proj2 (proj2 (proj2
             (startup_survives_upstream_failure demo_boot)))))))) eq_refl).
Defined.

(** X16.  A session that connects after an upstream update gets that update:
    when a snapshot update is handled and then [ws] connects, the update is
    first broadcast to the sessions that were open and then sent to [ws] as
    its first frame, and it is what [marketData] holds. *)
Theorem late_joiner_gets_latest_update
  (s : Server) (l : Link) (data : JValue) (ws : WebSocket) :
  dealer s = Some l ->
  snapshot_update (Document data) = true ->
  exists s',
    run [Upstream (Document data); Connection ws] s = Some s' /\
    marketData s' = data /\
    written_since s s'
      = fan_out s (market_data_message data) ++ [(ws, market_data_message data)].
Proof.
  intros Hd Hup.
  set (s1 := snd (dealer_on_message (Document data) s)).
  assert (Hstep1 : step (Upstream (Document data)) s = Some s1).
  { cbn [step]. rewrite Hd.
    apply (callback_returns _ _ (dealer_on_message_returns (Document data) s)). }
  destruct (step_Connection ws s1) as (s' & Hstep & _ & _ & Hw & Hmd).
  exists s'. cbn [run]. rewrite Hstep1, Hstep. split; [reflexivity|].
  unfold s1 in Hw, Hmd. rewrite dealer_on_message_update in Hw, Hmd by exact Hup.
  cbn [snd marketData wire with_wire with_marketData] in Hmd, Hw.
  split; [exact Hmd|]. unfold written_since. rewrite Hw, <- app_assoc.
  apply skipn_length_app.
Qed.

Lemma late_joiner_gets_latest_update_witness :
  exists s',
    run [Upstream (Document (quote 1.0761)); Connection 7] three_clients = Some s' /\
    marketData s' = quote 1.0761 /\
    written_since three_clients s'
      = fan_out three_clients (market_data_message (quote 1.0761))
        ++ [(7%nat, market_data_message (quote 1.0761))].
Proof.
  exact (late_joiner_gets_latest_update three_clients Up (quote 1.0761) 7
           eq_refl eq_refl).
Defined.
